(** * Magic-MEME: the generation client and the image normaliser

    A shallow embedding of [services/geminiService.ts] (the prompt builder,
    the timeout race and the response extraction of [generateMemeImage]) and
    of [utils/imageUtils.ts] ([cropImageToSquare]), with the properties of
    the specification stated over it.

    Conventions.
    - A JavaScript string is the list of its UTF-16 code units ([jsstring]).
    - A JavaScript number is a rational, an infinity or NaN ([JSNumber]);
      every finite double is a rational and the comparisons used by the
      code are exact, so a statement over all rationals covers all doubles.
    - A promise is its final state: [None] while pending for ever,
      [Some (Fulfilled v)] or [Some (Rejected reason)] once settled.
    - What the browser and the SDK do (the service call, image decoding,
      the 2D context, PNG serialisation) is an explicit environment. *)

From Stdlib Require Import List Bool Ascii String NArith ZArith QArith Qround Lia Lqa.
From Stdlib Require Import DecimalString.
Import ListNotations.

Set Implicit Arguments.

(* ================================================================== *)
(** ** JavaScript strings *)

Module JS.

Definition jsstring := list N.

(** A source literal (ASCII only in this code base) as code units. *)
Definition lit (s : string) : jsstring :=
  List.map N_of_ascii (list_ascii_of_string s).

Fixpoint str_eqb (a b : jsstring) : bool :=
  match a, b with
  | [], [] => true
  | x :: a', y :: b' => N.eqb x y && str_eqb a' b'
  | _, _ => false
  end.

(** [s.startsWith(p)] *)
Fixpoint startsWith (s p : jsstring) : bool :=
  match p, s with
  | [], _ => true
  | _ :: _, [] => false
  | y :: p', x :: s' => N.eqb x y && startsWith s' p'
  end.

(** [s.includes(p)]: [p] occurs in [s] at some position. *)
Fixpoint includes (s p : jsstring) : bool :=
  startsWith s p ||
  match s with
  | [] => false
  | _ :: s' => includes s' p
  end.

(** ECMAScript [WhiteSpace] and [LineTerminator] code units, the ones
    [String.prototype.trim] strips. *)
Definition isWhiteSpace (c : N) : bool :=
  (N.leb 9 c && N.leb c 13)          (* TAB LF VT FF CR *)
  || N.eqb c 32                      (* SPACE *)
  || N.eqb c 160                     (* NO-BREAK SPACE *)
  || N.eqb c 5760                    (* U+1680 *)
  || (N.leb 8192 c && N.leb c 8202)  (* U+2000 .. U+200A *)
  || N.eqb c 8232 || N.eqb c 8233    (* U+2028 U+2029 *)
  || N.eqb c 8239                    (* U+202F *)
  || N.eqb c 8287                    (* U+205F *)
  || N.eqb c 12288                   (* U+3000 *)
  || N.eqb c 65279.                  (* U+FEFF *)

Fixpoint trimStart (s : jsstring) : jsstring :=
  match s with
  | [] => []
  | c :: s' => if isWhiteSpace c then trimStart s' else s
  end.

Definition trimEnd (s : jsstring) : jsstring :=
  rev (trimStart (rev s)).

(** [s.trim()] *)
Definition trim (s : jsstring) : jsstring := trimEnd (trimStart s).

(** Truthiness of a string: every string but the empty one. *)
Definition truthy (s : jsstring) : bool :=
  match s with [] => false | _ :: _ => true end.

(** *** Numbers *)

Inductive JSNumber : Type :=
| Finite (q : Q)
| PosInf
| NegInf
| NaN.

(** [a <= b]; any comparison with NaN is false. *)
Definition num_le (a b : JSNumber) : bool :=
  match a, b with
  | NaN, _ | _, NaN => false
  | NegInf, _ => true
  | _, PosInf => true
  | Finite x, Finite y => Qle_bool x y
  | Finite _, NegInf => false
  | PosInf, _ => false
  end.

Definition num_lt (a b : JSNumber) : bool :=
  match a, b with
  | NaN, _ | _, NaN => false
  | Finite x, Finite y => negb (Qle_bool y x)
  | NegInf, NegInf => false
  | NegInf, _ => true
  | PosInf, _ => false
  | Finite _, PosInf => true
  | Finite _, NegInf => false
  end.

Definition of_Z (z : Z) : JSNumber := Finite (inject_Z z).

(** The text of [ms / 1000] inside a template literal, for a whole number
    of milliseconds below 10^15 (where the quotient prints as its exact
    decimal expansion): the integer part, then the up to three decimals
    with trailing zeros dropped. *)
Definition digit (d : N) : N := 48 + d.

Definition decimal (n : N) : jsstring :=
  lit (NilZero.string_of_uint (N.to_uint n)).

Definition thousandths (r : N) : jsstring :=
  let d1 := (r / 100)%N in
  let d2 := ((r / 10) mod 10)%N in
  let d3 := (r mod 10)%N in
  if negb (N.eqb d3 0) then [digit d1; digit d2; digit d3]
  else if negb (N.eqb d2 0) then [digit d1; digit d2]
  else [digit d1].

Definition secondsText (ms : N) : jsstring :=
  let r := (ms mod 1000)%N in
  if N.eqb r 0 then decimal (ms / 1000)
  else decimal (ms / 1000) ++ lit "." ++ thousandths r.

(** *** Thrown values and promises *)

(** What a [catch] clause can receive: an [Error] instance with its
    message, or any other value. *)
Inductive Thrown : Type :=
| ErrorObj (message : jsstring)
| NonError (shown : jsstring).

Inductive Settled (T : Type) : Type :=
| Fulfilled (value : T)
| Rejected (reason : Thrown).

Arguments Fulfilled {T} value.
Arguments Rejected {T} reason.

(** A promise handed to the code by its environment: it never settles,
    or settles [t] milliseconds after it was created. *)
Inductive Promise (T : Type) : Type :=
| NeverSettles
| SettlesAt (t : N) (s : Settled T).

Arguments NeverSettles {T}.
Arguments SettlesAt {T} t s.

End JS.

Import JS.

(* ================================================================== *)
(** ** The part of the @google/genai SDK the service uses *)

Module Genai.

Record Blob : Type := { data : jsstring; mimeType : jsstring }.

Record Part : Type := { inlineData : option Blob; text : option jsstring }.

Record Content : Type := { parts : option (list Part) }.

Record Candidate : Type := { content : option Content }.

Record GenerateContentResponse : Type :=
  { candidates : option (list Candidate) }.

Inductive Modality : Type := IMAGE | TEXT | AUDIO.

Record GenerateContentParameters : Type :=
  { model : jsstring;
    contents : list Part;
    responseModalities : list Modality }.

(** The service behind [ai.models.generateContent], and the one choice of
    the event loop the code can observe: whether a timer that is due runs
    before a response that became ready at the same instant. *)
Record Service : Type :=
  { generateContent : GenerateContentParameters -> Promise GenerateContentResponse;
    timersFirst : bool }.

End Genai.

(* ================================================================== *)
(** ** services/geminiService.ts *)

Module GeminiService.

(** *** The style and intensity clauses *)

Definition getStyleInstruction (style : jsstring) : jsstring :=
  if str_eqb style (lit "Realistic") then
    lit "in a photorealistic, cinematic style, as if it were a still from a live-action movie"
  else if str_eqb style (lit "Anime") then
    lit "in a vibrant Japanese anime style, with characteristic large eyes, expressive features, and dynamic lines"
  else if str_eqb style (lit "J-Art") then
    lit "in a beautiful, painterly Japanese art style, similar to concept art for a fantasy JRPG"
  else if str_eqb style (lit "Exaggerated") then
    lit "in a heavily exaggerated caricature style, amplifying the subject's expression and features for comedic effect"
  else if str_eqb style (lit "Comical") then
    lit "in a goofy, comical cartoon style with bright colors and simplified, funny shapes"
  else if str_eqb style (lit "Enchanted") then
    lit "in the classic Disney animation style, reminiscent of films like 'The Little Mermaid' or 'Aladdin'"
  else
    lit "in the classic Disney animation style, reminiscent of films like 'The Little Mermaid' or 'Aladdin'".

Definition subtleClause : jsstring :=
  lit "Subtly apply the style, making minimal changes to the original image's structure and preserving the subject's facial features as closely as possible.".

Definition balancedClause : jsstring :=
  lit "Apply a balanced style, preserving the core facial features of the subject while clearly transforming the overall aesthetic.".

Definition heavyClause : jsstring :=
  lit "Heavily redraw the image in the style, retaining only the most essential facial characteristics (like eye position and basic expression) while transforming everything else significantly.".

Definition getIntensityInstruction (intensity : JSNumber) : jsstring :=
  if num_le intensity (of_Z 33) then subtleClause
  else if num_le intensity (of_Z 66) then balancedClause
  else heavyClause.

(** *** withTimeout

    The new promise is settled by whichever callback runs first: the timer
    callback (unless [clearTimeout] removed it) or the reaction to the
    wrapped promise.  [resolve] and [reject] on a settled promise do
    nothing. *)

Inductive Event (T : Type) : Type :=
| TimerFires
| InnerSettles (s : Settled T).

Arguments TimerFires {T}.
Arguments InnerSettles {T} s.

Record Race (T : Type) : Type :=
  { outer : option (Settled T); timerArmed : bool }.

Definition settle {T} (cur : option (Settled T)) (s : Settled T)
  : option (Settled T) :=
  match cur with
  | None => Some s
  | Some _ => cur
  end.

Definition timeoutReason (ms : N) : Thrown :=
  ErrorObj (lit "Request timed out after " ++ secondsText ms ++ lit " seconds.").

Definition step {T} (ms : N) (st : Race T) (e : Event T) : Race T :=
  match e with
  | TimerFires =>
      if timerArmed st
      then {| outer := settle (outer st) (Rejected (timeoutReason ms));
              timerArmed := false |}
      else st
  | InnerSettles s =>
      {| outer := settle (outer st) s; timerArmed := false |}
  end.

(** The delay [setTimeout(callback, ms)] waits for, [ms] being a whole
    number: the argument is converted to a signed 32-bit integer and a
    negative result counts as 0, so a delay of 2^31 ms or more does not
    wait that long. *)
Definition timerDelay (ms : N) : N :=
  let wrapped := (ms mod 4294967296)%N in
  if N.ltb wrapped 2147483648 then wrapped else 0%N.

(** The order in which the two callbacks become due. *)
Definition timeline {T} (timersFirst : bool) (promise : Promise T) (ms : N)
  : list (Event T) :=
  match promise with
  | NeverSettles => [TimerFires]
  | SettlesAt t s =>
      if N.ltb t (timerDelay ms)
         || (N.eqb t (timerDelay ms) && negb timersFirst)
      then [InnerSettles s; TimerFires]
      else [TimerFires; InnerSettles s]
  end.

Definition run {T} (ms : N) (events : list (Event T)) : Race T :=
  fold_left (step ms) events {| outer := None; timerArmed := true |}.

Definition withTimeout {T} (timersFirst : bool) (promise : Promise T) (ms : N)
  : option (Settled T) :=
  outer (run ms (timeline timersFirst promise ms)).

(** *** generateMemeImage *)

Record GeneratedImage : Type := { base64 : jsstring; mimeType : jsstring }.

Definition dquote : jsstring := [34%N].

Definition textInstruction (memeText : jsstring) : jsstring :=
  if truthy (trim memeText) then
    lit "Finally, integrate the text " ++ dquote ++ memeText ++ dquote
      ++ lit " into the image using a prominent, stylized font that fits the chosen aesthetic."
  else [].

Definition descriptionInstruction (description : jsstring) : jsstring :=
  if truthy (trim description) then
    lit "Crucially, you must modify the subject's expression, pose, and the scene's atmosphere to visually represent the following description: "
      ++ dquote ++ description ++ dquote ++ lit "."
  else [].

Definition fullPrompt (memeText description : jsstring)
    (redrawIntensity : JSNumber) (style : jsstring) : jsstring :=
  lit "Your task is to create an image. Redraw the provided image "
    ++ getStyleInstruction style ++ lit ". "
    ++ descriptionInstruction description ++ lit " "
    ++ getIntensityInstruction redrawIntensity ++ lit " "
    ++ textInstruction memeText
    ++ lit " The output must be the final image only, with no explanatory text.".

Definition request (base64ImageData mimeType memeText description : jsstring)
    (redrawIntensity : JSNumber) (style : jsstring)
  : Genai.GenerateContentParameters :=
  {| Genai.model := lit "gemini-2.5-flash-image-preview";
     Genai.contents :=
       [ {| Genai.inlineData :=
              Some {| Genai.data := base64ImageData; Genai.mimeType := mimeType |};
            Genai.text := None |};
         {| Genai.inlineData := None;
            Genai.text :=
              Some (fullPrompt memeText description redrawIntensity style) |} ];
     Genai.responseModalities := [Genai.IMAGE; Genai.TEXT] |}.

(** [response.candidates?.[0]?.content?.parts] *)
Definition firstParts (response : Genai.GenerateContentResponse)
  : option (list Genai.Part) :=
  match Genai.candidates response with
  | Some (candidate :: _) =>
      match Genai.content candidate with
      | Some c => Genai.parts c
      | None => None
      end
  | _ => None
  end.

Definition hasInlineData (part : Genai.Part) : bool :=
  match Genai.inlineData part with Some _ => true | None => false end.

Definition hasText (part : Genai.Part) : bool :=
  match Genai.text part with Some s => truthy s | None => false end.

Definition imagePart (response : Genai.GenerateContentResponse)
  : option Genai.Part :=
  match firstParts response with
  | Some ps => List.find hasInlineData ps
  | None => None
  end.

Definition textPart (response : Genai.GenerateContentResponse)
  : option Genai.Part :=
  match firstParts response with
  | Some ps => List.find hasText ps
  | None => None
  end.

(** How the [try] block ends. *)
Inductive Completion : Type :=
| Returned (image : GeneratedImage)
| Threw (error : Thrown)
| Hangs.

(** The statements after the [await]. *)
Definition extract (response : Genai.GenerateContentResponse) : Completion :=
  match
    match imagePart response with
    | Some part => Genai.inlineData part
    | None => None
    end
  with
  | Some blob =>
      Returned {| base64 := Genai.data blob; mimeType := Genai.mimeType blob |}
  | None =>
      match
        match textPart response with
        | Some part =>
            match Genai.text part with
            | Some s => if truthy s then Some s else None
            | None => None
            end
        | None => None
        end
      with
      | Some s =>
          Threw (ErrorObj (lit "Model returned text instead of an image: " ++ s))
      | None => Threw (ErrorObj (lit "No image data found in the API response."))
      end
  end.

Definition tryBlock (ai : Genai.Service)
    (base64ImageData mimeType memeText description : jsstring)
    (redrawIntensity : JSNumber) (style : jsstring) : Completion :=
  let generationPromise :=
    Genai.generateContent ai
      (request base64ImageData mimeType memeText description redrawIntensity style) in
  match withTimeout (Genai.timersFirst ai) generationPromise 120000 with
  | None => Hangs
  | Some (Rejected reason) => Threw reason
  | Some (Fulfilled response) => extract response
  end.

Definition timedOutMessage : jsstring :=
  lit "Image generation timed out. The image may be too complex. Please try again with a different image.".

Definition unknownMessage : jsstring :=
  lit "An unknown error occurred while calling the Gemini API.".

(** The [catch] clause: the value it throws in turn ([console.error] only
    logs). *)
Definition catchClause (error : Thrown) : Thrown :=
  match error with
  | ErrorObj message =>
      if includes message (lit "timed out") then ErrorObj timedOutMessage
      else ErrorObj (lit "API Error: " ++ message)
  | NonError _ => ErrorObj unknownMessage
  end.

Definition generateMemeImage (ai : Genai.Service)
    (base64ImageData mimeType memeText description : jsstring)
    (redrawIntensity : JSNumber) (style : jsstring)
  : option (Settled GeneratedImage) :=
  match tryBlock ai base64ImageData mimeType memeText description
          redrawIntensity style with
  | Returned image => Some (Fulfilled image)
  | Threw error => Some (Rejected (catchClause error))
  | Hangs => None
  end.

End GeminiService.

(* ================================================================== *)
(** ** utils/imageUtils.ts *)

Module ImageUtils.

Local Open Scope Q_scope.

Record Pixel : Type := { red : N; green : N; blue : N; alpha : N }.

Definition transparentBlack : Pixel :=
  {| red := 0%N; green := 0%N; blue := 0%N; alpha := 0%N |}.

(** A decoded image or a canvas: its size and the pixel at column [x],
    row [y]. *)
Record Bitmap : Type :=
  { width : N; height : N; pixel : N -> N -> Pixel }.

(** The browser, as far as [cropImageToSquare] meets it.
    - [decode]: the bitmap an [Image] element loads from a URL; [None] when
      the load fails and [onerror] runs.
    - [getContext2d w h]: whether a canvas of that size yields a 2D context.
    - [sample image kx ky u v]: the colour read from [image] at the point
      [(u, v)] of its pixel grid when it is drawn scaled by [kx], [ky].
    - [supportsType] and [serialize]: the encoders behind [toDataURL]; the
      base64 text of the file for a bitmap, or [None] when the user agent
      produces no file (a canvas beyond its size limits, an encoder
      error). *)
Record Host : Type :=
  { decode : jsstring -> option Bitmap;
    getContext2d : N -> N -> bool;
    sample : Bitmap -> Q -> Q -> Q -> Q -> Pixel;
    supportsType : jsstring -> bool;
    serialize : jsstring -> Bitmap -> option jsstring }.

Definition createCanvas (w h : N) : Bitmap :=
  {| width := w; height := h; pixel := fun _ _ => transparentBlack |}.

Definition ofN (n : N) : Q := inject_Z (Z.of_N n).

Definition Qlt_bool (a b : Q) : bool := negb (Qle_bool b a).

(** [ctx.drawImage(image, sx, sy, sw, sh, dx, dy, dw, dh)] on a canvas that
    is still blank: a canvas pixel whose centre falls in the destination
    rectangle takes the colour of the corresponding point of the source
    rectangle; nothing is painted when the source rectangle is empty. *)
Definition drawImage (host : Host) (image : Bitmap)
    (sx sy sw sh dx dy dw dh : Q) (canvas : Bitmap) : Bitmap :=
  if Qeq_bool sw 0 || Qeq_bool sh 0 then canvas
  else
    {| width := width canvas;
       height := height canvas;
       pixel := fun x y =>
         let cx := ofN x + (1 # 2) in
         let cy := ofN y + (1 # 2) in
         if Qle_bool dx cx && Qlt_bool cx (dx + dw)
            && Qle_bool dy cy && Qlt_bool cy (dy + dh)
         then sample host image (dw / sw) (dh / sh)
                (sx + (cx - dx) * sw / dw) (sy + (cy - dy) * sh / dh)
         else pixel canvas x y |}.

(** [canvas.toDataURL(type)]: [data:,] for a canvas without pixels;
    otherwise the file in the requested type, or in PNG when the type is
    not supported (PNG always is); [data:,] again when no file could be
    produced. *)
Definition toDataURL (host : Host) (type : jsstring) (canvas : Bitmap)
  : jsstring :=
  if N.eqb (width canvas) 0%N || N.eqb (height canvas) 0%N then lit "data:,"
  else
    let served :=
      if str_eqb type (lit "image/png") || supportsType host type
      then type else lit "image/png" in
    match serialize host served canvas with
    | Some file => lit "data:" ++ served ++ lit ";base64," ++ file
    | None => lit "data:,"
    end.

(** The value [onerror] rejects with is the error event, not an [Error]. *)
Definition errorEvent : Thrown := NonError (lit "[object Event]").

Definition cropImageToSquare (host : Host) (dataUrl : jsstring)
  : Settled jsstring :=
  match decode host dataUrl with
  | None => Rejected errorEvent
  | Some image =>
      let size := N.min (width image) (height image) in
      let canvas := createCanvas size size in
      if negb (getContext2d host size size) then
        Rejected (ErrorObj (lit "Could not get canvas context"))
      else
        let startX := (ofN (width image) - ofN size) / 2 in
        let startY := (ofN (height image) - ofN size) / 2 in
        let drawn :=
          drawImage host image startX startY (ofN size) (ofN size)
            0 0 (ofN size) (ofN size) canvas in
        Fulfilled (toDataURL host (lit "image/png") drawn)
  end.

(** The canvas [cropImageToSquare] serialises, for a decoded image. *)
Definition croppedCanvas (host : Host) (image : Bitmap) : Bitmap :=
  let size := N.min (width image) (height image) in
  drawImage host image
    ((ofN (width image) - ofN size) / 2) ((ofN (height image) - ofN size) / 2)
    (ofN size) (ofN size) 0 0 (ofN size) (ofN size)
    (createCanvas size size).

(** Two bitmaps show the same picture. *)
Definition pixelIdentical (a b : Bitmap) : Prop :=
  width a = width b /\ height a = height b /\
  forall x y, (x < width a)%N -> (y < height a)%N -> pixel a x y = pixel b x y.

(** A user agent that copies pixels when it draws unscaled and aligned
    with the pixel grid. *)
Definition copiesOnGrid (host : Host) : Prop :=
  forall image kx ky u v x y,
    (x < width image)%N -> (y < height image)%N ->
    kx == 1 -> ky == 1 -> u == ofN x + (1 # 2) -> v == ofN y + (1 # 2) ->
    sample host image kx ky u v = pixel image x y.

End ImageUtils.

(* ================================================================== *)
(** ** Vocabulary of the statements and sample inputs *)

Module Spec.

Import GeminiService.

(** [part] is the first element of [ps] that satisfies [p]. *)
Definition firstWith {A} (p : A -> bool) (ps : list A) (part : A) : Prop :=
  exists before after,
    ps = before ++ part :: after /\
    (forall q, In q before -> p q = false) /\
    p part = true.

(** The content parts of the first candidate; none when a link of the
    optional chain is missing. *)
Definition partsOf (response : Genai.GenerateContentResponse)
  : list Genai.Part :=
  match firstParts response with
  | Some ps => ps
  | None => []
  end.

Definition knownStyles : list jsstring :=
  [lit "Realistic"; lit "Anime"; lit "J-Art"; lit "Exaggerated";
   lit "Comical"; lit "Enchanted"].

(** The caption-insertion clause: its fixed opening words, the caption
    between double quotes, its fixed ending. *)
Definition captionHead : jsstring := lit "Finally, integrate the text ".

Definition captionTail : jsstring :=
  lit " into the image using a prominent, stylized font that fits the chosen aesthetic.".

Definition captionClause (memeText : jsstring) : jsstring :=
  captionHead ++ dquote ++ memeText ++ dquote ++ captionTail.

(** The mood/description clause. *)
Definition moodHead : jsstring :=
  lit "Crucially, you must modify the subject's expression, pose, and the scene's atmosphere to visually represent the following description: ".

Definition moodClause (description : jsstring) : jsstring :=
  moodHead ++ dquote ++ description ++ dquote ++ lit ".".

Definition opening : jsstring :=
  lit "Your task is to create an image. Redraw the provided image ".

Definition closing : jsstring :=
  lit " The output must be the final image only, with no explanatory text.".

(** *** Sample services and responses *)

Definition replyWith (ps : list Genai.Part) : Genai.GenerateContentResponse :=
  {| Genai.candidates :=
       Some [ {| Genai.content := Some {| Genai.parts := Some ps |} |} ] |}.

Definition textOnly (s : jsstring) : Genai.Part :=
  {| Genai.inlineData := None; Genai.text := Some s |}.

Definition imageOnly (blob : Genai.Blob) : Genai.Part :=
  {| Genai.inlineData := Some blob; Genai.text := None |}.

(** A service whose call settles [t] ms after the request, whatever the
    request. *)
Definition answers (t : N) (s : Settled Genai.GenerateContentResponse)
  : Genai.Service :=
  {| Genai.generateContent := fun _ => SettlesAt t s;
     Genai.timersFirst := false |}.

(** A service that never answers. *)
Definition silent : Genai.Service :=
  {| Genai.generateContent := fun _ => NeverSettles;
     Genai.timersFirst := false |}.

Definition samplePng : Genai.Blob :=
  {| Genai.data := lit "iVBORw0KGgo="; Genai.mimeType := lit "image/png" |}.

Definition sampleJpeg : Genai.Blob :=
  {| Genai.data := lit "/9j/4AAQSkZJRg=="; Genai.mimeType := lit "image/jpeg" |}.

Definition refusalAboutMeeting : jsstring :=
  lit "The caption says the meeting timed out, which I cannot draw.".

Definition refusalAboutReferee : jsstring :=
  lit "I will not depict a player being timed out by a referee.".

(** *** A sample browser *)

Definition gradient (w h : N) : ImageUtils.Bitmap :=
  {| ImageUtils.width := w;
     ImageUtils.height := h;
     ImageUtils.pixel := fun x y =>
       {| ImageUtils.red := x; ImageUtils.green := y;
          ImageUtils.blue := 7; ImageUtils.alpha := 255 |} |}.

(** Nearest-neighbour sampling: the pixel the point lies in. *)
Definition nearest (image : ImageUtils.Bitmap) (kx ky u v : Q)
  : ImageUtils.Pixel :=
  ImageUtils.pixel image (Z.to_N (Qfloor u)) (Z.to_N (Qfloor v)).

Definition upTo (n : N) : list N := List.map N.of_nat (seq 0 (N.to_nat n)).

(** A stand-in for the encoder: the channels of every pixel, row by row. *)
Definition channels (type : jsstring) (b : ImageUtils.Bitmap) : jsstring :=
  flat_map
    (fun y =>
       flat_map
         (fun x =>
            let p := ImageUtils.pixel b x y in
            [ImageUtils.red p; ImageUtils.green p;
             ImageUtils.blue p; ImageUtils.alpha p])
         (upTo (ImageUtils.width b)))
    (upTo (ImageUtils.height b)).

Definition browser : ImageUtils.Host :=
  {| ImageUtils.decode := fun url =>
       if str_eqb url (lit "data:image/jpeg;base64,c3F1YXJl")
       then Some (gradient 3 3)
       else if str_eqb url (lit "data:image/jpeg;base64,d2lkZQ==")
       then Some (gradient 4 2)
       else None;
     ImageUtils.getContext2d := fun _ _ => true;
     ImageUtils.sample := nearest;
     ImageUtils.supportsType := fun _ => false;
     ImageUtils.serialize := fun type b => Some (channels type b) |}.

End Spec.

(* ================================================================== *)
(** ** utils/imageUtils.ts, reading the file *)

Module ImageFiles.

(** A file picked by the user. *)
Record File : Type :=
  { fileName : jsstring; fileType : jsstring; fileBytes : list N }.

(** [fileToDataUrl]: [read] is the browser's [FileReader.readAsDataURL],
    giving the result handed to [onload], or [None] when [onerror] runs
    instead.  The rejection value is the error event. *)
Definition fileToDataUrl (read : File -> option jsstring) (file : File)
  : Settled jsstring :=
  match read file with
  | Some result => Fulfilled result
  | None => Rejected ImageUtils.errorEvent
  end.

End ImageFiles.

(* ================================================================== *)
(** ** App.tsx: the state of the page and its handlers *)

Module App.

Import GeminiService.

(** The style buttons: identifier and label, in the order of
    [Object.entries]. *)
Definition styles : list (jsstring * jsstring) :=
  [ (lit "Enchanted", [39764; 24187]%N);
    (lit "Realistic", [30495; 20154]%N);
    (lit "Anime", [21160; 28459]%N);
    (lit "J-Art", [26085; 31995]%N);
    (lit "Exaggerated", [22840; 24352]%N);
    (lit "Comical", [25630; 31505]%N) ].

(** The [useState] cells of the component. *)
Record State : Type :=
  { originalImage : option jsstring;
    memeText : jsstring;
    promptDescription : jsstring;
    redrawIntensity : JSNumber;
    memeStyle : jsstring;
    generatedImage : option jsstring;
    isLoading : bool;
    error : option jsstring;
    isCopied : bool }.

Definition initialState : State :=
  {| originalImage := None;
     memeText := [];
     promptDescription := [];
     redrawIntensity := of_Z 50;
     memeStyle := lit "Enchanted";
     generatedImage := None;
     isLoading := false;
     error := None;
     isCopied := false |}.

Definition setOriginalImage (v : option jsstring) (st : State) : State :=
  {| originalImage := v;
     memeText := memeText st;
     promptDescription := promptDescription st;
     redrawIntensity := redrawIntensity st;
     memeStyle := memeStyle st;
     generatedImage := generatedImage st;
     isLoading := isLoading st;
     error := error st;
     isCopied := isCopied st |}.

Definition setGeneratedImage (v : option jsstring) (st : State) : State :=
  {| originalImage := originalImage st;
     memeText := memeText st;
     promptDescription := promptDescription st;
     redrawIntensity := redrawIntensity st;
     memeStyle := memeStyle st;
     generatedImage := v;
     isLoading := isLoading st;
     error := error st;
     isCopied := isCopied st |}.

Definition setIsLoading (v : bool) (st : State) : State :=
  {| originalImage := originalImage st;
     memeText := memeText st;
     promptDescription := promptDescription st;
     redrawIntensity := redrawIntensity st;
     memeStyle := memeStyle st;
     generatedImage := generatedImage st;
     isLoading := v;
     error := error st;
     isCopied := isCopied st |}.

Definition setError (v : option jsstring) (st : State) : State :=
  {| originalImage := originalImage st;
     memeText := memeText st;
     promptDescription := promptDescription st;
     redrawIntensity := redrawIntensity st;
     memeStyle := memeStyle st;
     generatedImage := generatedImage st;
     isLoading := isLoading st;
     error := v;
     isCopied := isCopied st |}.

(** Truthiness of a [string | null] (or [string | undefined]) value. *)
Definition present (v : option jsstring) : bool :=
  match v with
  | Some s => truthy s
  | None => false
  end.

(** [s.split(sep)] for a separator of one code unit. *)
Fixpoint split (sep : N) (s : jsstring) : list jsstring :=
  match s with
  | [] => [[]]
  | c :: s' =>
      if N.eqb c sep then [] :: split sep s'
      else
        match split sep s' with
        | piece :: pieces => (c :: piece) :: pieces
        | [] => [[c]]
        end
  end.

Definition comma : N := 44.

(** [handleImageChange]: [files] is [e.target.files]. *)
Definition handleImageChange (read : ImageFiles.File -> option jsstring)
    (host : ImageUtils.Host) (files : list ImageFiles.File) (st : State)
  : State :=
  match files with
  | [] => st
  | file :: _ =>
      match ImageFiles.fileToDataUrl read file with
      | Rejected _ => setError (Some (lit "Failed to read and crop image file.")) st
      | Fulfilled dataUrl =>
          match ImageUtils.cropImageToSquare host dataUrl with
          | Rejected _ =>
              setError (Some (lit "Failed to read and crop image file.")) st
          | Fulfilled croppedDataUrl =>
              setError None
                (setGeneratedImage None
                   (setOriginalImage (Some croppedDataUrl) st))
          end
      end
  end.

(** The [try] block of [handleGenerate] up to the end of the [await]:
    [None] while the awaited promise is pending. *)
Definition attempt (ai : Genai.Service) (st : State) (image : jsstring)
  : option (Settled GeneratedImage) :=
  let base64Data := nth_error (split comma image) 1 in
  if negb (present base64Data) then
    Some (Rejected (ErrorObj (lit "Invalid image data URL.")))
  else
    generateMemeImage ai
      (match base64Data with Some d => d | None => [] end)
      (lit "image/png") (memeText st) (promptDescription st)
      (redrawIntensity st) (memeStyle st).

(** What follows the [await]: the rest of [try], then [catch], then
    [finally]. *)
Definition conclude (outcome : option (Settled GeneratedImage)) (st : State)
  : State :=
  match outcome with
  | None => st
  | Some (Fulfilled result) =>
      setIsLoading false
        (setGeneratedImage
           (Some (lit "data:" ++ mimeType result ++ lit ";base64,"
                    ++ base64 result)) st)
  | Some (Rejected err) =>
      let errorMessage :=
        match err with
        | ErrorObj message => message
        | NonError _ =>
            lit "An unknown error occurred during image generation."
        end in
      setIsLoading false
        (setError (Some (lit "Generation failed: " ++ errorMessage)) st)
  end.

Definition handleGenerate (ai : Genai.Service) (st : State) : State :=
  if negb (present (originalImage st)) then
    setError (Some (lit "Please upload an image to begin the magic.")) st
  else
    let image := match originalImage st with Some i => i | None => [] end in
    conclude (attempt ai st image)
      (setGeneratedImage None (setError None (setIsLoading true st))).

Definition getDescriptionForIntensity (intensity : JSNumber) : jsstring :=
  if num_le intensity (of_Z 33) then
    lit "Subtle Magic: Keeps most of the original image."
  else if num_le intensity (of_Z 66) then
    lit "Balanced Charm: Blends original features with the selected style."
  else
    lit "Full Transformation: A strong style that may alter features significantly.".

End App.

(* ================================================================== *)
(** ** Further sample inputs *)

Module Samples.

Definition photo : ImageFiles.File :=
  {| ImageFiles.fileName := lit "cat.jpg";
     ImageFiles.fileType := lit "image/jpeg";
     ImageFiles.fileBytes := [255; 216; 255; 224]%N |}.

Definition notes : ImageFiles.File :=
  {| ImageFiles.fileName := lit "notes.txt";
     ImageFiles.fileType := lit "text/plain";
     ImageFiles.fileBytes := [104; 105]%N |}.

(** A reader that fails on everything but [cat.jpg]. *)
Definition reader (file : ImageFiles.File) : option jsstring :=
  if str_eqb (ImageFiles.fileName file) (lit "cat.jpg")
  then Some (lit "data:image/jpeg;base64,d2lkZQ==")
  else None.

(** A browser whose decoder yields an image without pixels. *)
Definition hollow : ImageUtils.Host :=
  {| ImageUtils.decode := fun _ => Some (Spec.gradient 0 5);
     ImageUtils.getContext2d := fun _ _ => true;
     ImageUtils.sample := Spec.nearest;
     ImageUtils.supportsType := fun _ => false;
     ImageUtils.serialize := fun type b => Some (Spec.channels type b) |}.

(** A browser without 2D contexts. *)
Definition contextless : ImageUtils.Host :=
  {| ImageUtils.decode := fun _ => Some (Spec.gradient 4 2);
     ImageUtils.getContext2d := fun _ _ => false;
     ImageUtils.sample := Spec.nearest;
     ImageUtils.supportsType := fun _ => false;
     ImageUtils.serialize := fun type b => Some (Spec.channels type b) |}.

(** A browser whose encoder writes a fixed base64 text. *)
Definition encoding : ImageUtils.Host :=
  {| ImageUtils.decode := fun _ => Some (Spec.gradient 4 2);
     ImageUtils.getContext2d := fun _ _ => true;
     ImageUtils.sample := Spec.nearest;
     ImageUtils.supportsType := fun _ => false;
     ImageUtils.serialize := fun _ _ => Some (lit "iVBORw0KGgo=") |}.

(** A browser that, like the common ones, produces no file for a canvas
    of more than 16384 by 16384 pixels. *)
Definition limited : ImageUtils.Host :=
  {| ImageUtils.decode := fun _ => Some (Spec.gradient 17000 17000);
     ImageUtils.getContext2d := fun _ _ => true;
     ImageUtils.sample := Spec.nearest;
     ImageUtils.supportsType := fun _ => false;
     ImageUtils.serialize := fun type b =>
       if N.leb (ImageUtils.width b * ImageUtils.height b) 268435456
       then Some (Spec.channels type b) else None |}.






Definition uploaded : App.State :=
  App.setOriginalImage (Some (lit "data:image/png;base64,iVBORw0KGgo="))
    App.initialState.

End Samples.

(* ================================================================== *)
(** * Properties *)

(** ** Strings *)

Module JSFacts.

Lemma str_eqb_eq (a b : jsstring) : str_eqb a b = true <-> a = b.
Proof.
  revert b; induction a as [|x a IH]; intros [|y b]; simpl;
    try (split; [discriminate | congruence]); try tauto.
  rewrite andb_true_iff, N.eqb_eq, IH.
  split; [intros [-> ->]; reflexivity | intros H; inversion H; auto].
Qed.

Lemma str_eqb_neq (a b : jsstring) : str_eqb a b = false <-> a <> b.
Proof.
  rewrite <- str_eqb_eq. destruct (str_eqb a b); split; congruence.
Qed.

Lemma startsWith_app (p s : jsstring) : startsWith (p ++ s) p = true.
Proof.
  induction p as [|y p IH]; simpl; [destruct s; reflexivity|].
  now rewrite N.eqb_refl, IH.
Qed.

Lemma startsWith_prefix (s p : jsstring) :
  startsWith s p = true <-> exists rest, s = p ++ rest.
Proof.
  revert s; induction p as [|y p IH]; intros s.
  - split; [exists s; reflexivity | destruct s; reflexivity].
  - destruct s as [|x s]; simpl.
    + split; [discriminate | intros [r H]; discriminate].
    + rewrite andb_true_iff, N.eqb_eq, IH. split.
      * intros [-> [r ->]]. now exists r.
      * intros [r H]. inversion H; subst. split; [reflexivity | now exists r].
Qed.

Lemma includes_eq (s p : jsstring) :
  includes s p =
  startsWith s p || match s with [] => false | _ :: s' => includes s' p end.
Proof. destruct s; reflexivity. Qed.

Lemma includes_here (s p : jsstring) :
  startsWith s p = true -> includes s p = true.
Proof. intros H. destruct s; simpl in *; rewrite H; reflexivity. Qed.

Lemma includes_skip (a s p : jsstring) :
  includes s p = true -> includes (a ++ s) p = true.
Proof.
  intros H; induction a as [|x a IH]; simpl; [exact H|].
  rewrite IH. apply orb_true_r.
Qed.

(** An occurrence is found wherever it lies. *)
Lemma includes_app (a p b : jsstring) : includes (a ++ p ++ b) p = true.
Proof. apply includes_skip, includes_here, startsWith_app. Qed.

Lemma includes_occurs (s p : jsstring) :
  includes s p = true <-> exists a b, s = a ++ p ++ b.
Proof.
  split.
  - induction s as [|x s IH]; rewrite includes_eq, orb_true_iff.
    + intros [H|H]; [|discriminate].
      apply startsWith_prefix in H as [r H]. now exists [], r.
    + intros [H|H].
      * apply startsWith_prefix in H as [r H]. now exists [], r.
      * destruct (IH H) as (a & b & ->). now exists (x :: a), b.
  - intros (a & b & ->). apply includes_app.
Qed.

(** A code unit that does not occur in [p] cuts the search in two. *)
Lemma includes_split_at (c : N) (p a b : jsstring) :
  ~ In c p ->
  includes (a ++ c :: b) p = includes a p || includes b p.
Proof.
  intros Hc. apply eq_true_iff_eq.
  rewrite orb_true_iff, !includes_occurs. split.
  - intros (x & y & E).
    apply app_eq_app in E as [l [[-> E]|[-> E]]].
    + apply app_eq_app in E as [m [[-> E]|[-> E]]].
      * destruct m as [|c' m]; simpl in E.
        -- left. exists x, []. now rewrite ?app_nil_r.
        -- inversion E; subst. exfalso. apply Hc.
           apply in_or_app. right. now left.
      * left. exists x, m. now rewrite <- ?app_assoc.
    + destruct l as [|c' l]; simpl in E.
      * destruct p as [|c' p]; simpl in E.
        -- left. exists a, []. now rewrite ?app_nil_r.
        -- inversion E; subst. exfalso. apply Hc. now left.
      * inversion E; subst. right. now exists l, y.
  - intros [(x & y & ->)|(x & y & ->)].
    + exists x, (y ++ c :: b). now rewrite <- ?app_assoc.
    + exists (a ++ c :: x), y. now rewrite <- ?app_assoc.
Qed.

Lemma trimStart_nil (s : jsstring) :
  trimStart s = [] <-> forallb isWhiteSpace s = true.
Proof.
  induction s as [|c s IH]; simpl; [tauto|].
  destruct (isWhiteSpace c); simpl; [exact IH|].
  split; discriminate.
Qed.

Lemma trimStart_suffix (s : jsstring) :
  exists ws, s = ws ++ trimStart s /\ forallb isWhiteSpace ws = true.
Proof.
  induction s as [|c s (ws & E & W)]; simpl.
  - now exists [].
  - destruct (isWhiteSpace c) eqn:Hc.
    + exists (c :: ws). simpl. rewrite Hc, W. split; [congruence | reflexivity].
    + now exists [].
Qed.

(** Trimming leaves nothing exactly when every code unit is white space. *)
Lemma trim_nil (s : jsstring) :
  trim s = [] <-> forallb isWhiteSpace s = true.
Proof.
  unfold trim, trimEnd.
  destruct (trimStart_suffix s) as (ws & E & W).
  split.
  - intros H.
    assert (H1 : trimStart (rev (trimStart s)) = []).
    { apply (f_equal (@rev N)) in H. now rewrite rev_involutive in H. }
    apply trimStart_nil in H1.
    rewrite E, forallb_app, W. simpl.
    rewrite forallb_forall in *. intros c Hc. apply H1.
    now apply in_rev in Hc.
  - intros H. rewrite forallb_forall in H.
    assert (H1 : forallb isWhiteSpace (rev (trimStart s)) = true).
    { apply forallb_forall. intros c Hc. apply H.
      apply in_rev in Hc. rewrite E. apply in_or_app. now right. }
    apply trimStart_nil in H1. now rewrite H1.
Qed.

Lemma truthy_nonempty (s : jsstring) : truthy s = true <-> s <> [].
Proof. destruct s; simpl; split; congruence. Qed.

Lemma find_firstWith {A} (p : A -> bool) (ps : list A) (part : A) :
  List.find p ps = Some part <-> Spec.firstWith p ps part.
Proof.
  unfold Spec.firstWith. split.
  - induction ps as [|q ps IH]; simpl; [discriminate|].
    destruct (p q) eqn:Hq.
    + intros [= ->]. exists [], ps. repeat split; auto. intros ? [].
    + intros H. destruct (IH H) as (b & a & -> & Hb & Hp).
      exists (q :: b), a. repeat split; auto.
      intros r [<-|Hr]; auto.
  - intros (b & a & -> & Hb & Hp).
    induction b as [|q b IH]; simpl.
    + now rewrite Hp.
    + rewrite (Hb q (or_introl eq_refl)). apply IH.
      intros r Hr. apply Hb. now right.
Qed.

Lemma find_none {A} (p : A -> bool) (ps : list A) :
  List.find p ps = None <-> forall q, In q ps -> p q = false.
Proof.
  split.
  - intros H q Hq. now apply (find_none p ps H).
  - induction ps as [|q ps IH]; simpl; [reflexivity|]. intros H.
    rewrite (H q (or_introl eq_refl)). apply IH. intros r Hr. apply H. now right.
Qed.

End JSFacts.

(* ================================================================== *)
(** ** The instruction builder *)

Module BuilderSpec.

Import GeminiService Spec JSFacts.

Lemma Qle_bool_inject_Z (a b : Z) :
  Qle_bool (inject_Z a) (inject_Z b) = (a <=? b)%Z.
Proof. unfold Qle_bool; simpl. now rewrite !Z.mul_1_r. Qed.

Lemma intensity_of_Z (z : Z) :
  getIntensityInstruction (of_Z z) =
  if (z <=? 33)%Z then subtleClause
  else if (z <=? 66)%Z then balancedClause else heavyClause.
Proof.
  unfold getIntensityInstruction, of_Z, num_le.
  now rewrite !Qle_bool_inject_Z.
Qed.

Lemma clauses_distinct :
  subtleClause <> balancedClause /\ balancedClause <> heavyClause /\
  subtleClause <> heavyClause.
Proof. repeat split; intros H; discriminate H. Qed.

(** C3. For an integer intensity between 0 and 100 the builder picks one
    of three distinct clauses by inclusive thresholds: 0 to 33 gives the
    subtle clause, 34 to 66 the balanced clause, 67 to 100 the heavy-redraw
    clause; so 33 is subtle, 34 and 66 are balanced and 67 is heavy. *)
Theorem intensity_tiers (z : Z) :
  let subtle :=
    lit "Subtly apply the style, making minimal changes to the original image's structure and preserving the subject's facial features as closely as possible." in
  let balanced :=
    lit "Apply a balanced style, preserving the core facial features of the subject while clearly transforming the overall aesthetic." in
  let heavy :=
    lit "Heavily redraw the image in the style, retaining only the most essential facial characteristics (like eye position and basic expression) while transforming everything else significantly." in
  (0 <= z <= 100)%Z ->
  ((z <= 33)%Z -> getIntensityInstruction (of_Z z) = subtle) /\
  ((34 <= z <= 66)%Z -> getIntensityInstruction (of_Z z) = balanced) /\
  ((67 <= z)%Z -> getIntensityInstruction (of_Z z) = heavy) /\
  (subtle <> balanced /\ balanced <> heavy /\ subtle <> heavy) /\
  getIntensityInstruction (of_Z 33) = subtle /\
  getIntensityInstruction (of_Z 34) = balanced /\
  getIntensityInstruction (of_Z 66) = balanced /\
  getIntensityInstruction (of_Z 67) = heavy.
Proof.
  intros subtle balanced heavy _.
  change subtle with subtleClause. change balanced with balancedClause.
  change heavy with heavyClause. clear subtle balanced heavy.
  rewrite !intensity_of_Z.
  split; [|split; [|split; [|split]]].
  - intros H. apply Z.leb_le in H. now rewrite H.
  - intros [H1 H2].
    assert (E1 : (z <=? 33)%Z = false) by (apply Z.leb_gt; lia).
    apply Z.leb_le in H2. now rewrite E1, H2.
  - intros H.
    assert (E1 : (z <=? 33)%Z = false) by (apply Z.leb_gt; lia).
    assert (E2 : (z <=? 66)%Z = false) by (apply Z.leb_gt; lia).
    now rewrite E1, E2.
  - exact clauses_distinct.
  - repeat split.
Qed.

Lemma intensity_tiers_witness :
  (0 <= 34 <= 100)%Z /\
  getIntensityInstruction (of_Z 34) =
  lit "Apply a balanced style, preserving the core facial features of the subject while clearly transforming the overall aesthetic.".
Proof.
  assert (R : (0 <= 34 <= 100)%Z) by lia.
  split; [exact R|].
  apply (proj1 (proj2 (@intensity_tiers 34 R))). lia.
Defined.

Lemma below_zero_le (q : Q) (b : Z) :
  (0 <= b)%Z -> negb (Qle_bool (inject_Z 0) q) = true ->
  Qle_bool q (inject_Z b) = true.
Proof.
  intros Hb H. apply negb_true_iff in H. apply Qle_bool_iff.
  apply Qle_trans with (inject_Z 0).
  - apply Qlt_le_weak, Qnot_le_lt. intros C.
    apply Qle_bool_iff in C. congruence.
  - now rewrite <- Zle_Qle.
Qed.

Lemma above_hundred_gt (q : Q) (b : Z) :
  (b <= 100)%Z -> negb (Qle_bool q (inject_Z 100)) = true ->
  Qle_bool q (inject_Z b) = false.
Proof.
  intros Hb H. apply negb_true_iff in H.
  destruct (Qle_bool q (inject_Z b)) eqn:E; [|reflexivity].
  apply Qle_bool_iff in E.
  assert (C : q <= inject_Z 100).
  { apply Qle_trans with (inject_Z b); [exact E | now rewrite <- Zle_Qle]. }
  apply Qle_bool_iff in C. congruence.
Qed.

(** Every number, NaN and the infinities included, gets one of the three
    clauses. *)
Lemma intensity_clause_cases (n : JSNumber) :
  In (getIntensityInstruction n) [subtleClause; balancedClause; heavyClause].
Proof.
  unfold getIntensityInstruction.
  destruct (num_le n (of_Z 33)); [now left|].
  destruct (num_le n (of_Z 66)); [right; now left | right; right; now left].
Qed.

Lemma style_clause_cases (style : jsstring) :
  In (getStyleInstruction style)
     (List.map getStyleInstruction knownStyles).
Proof.
  unfold getStyleInstruction at 1.
  repeat match goal with
         | |- context [if str_eqb style ?l then _ else _] =>
             destruct (str_eqb style l)
         end; vm_compute; tauto.
Qed.

(** C7. A style outside the six recognised identifiers gets the clause of
    'Enchanted', the default; each recognised style has its own fixed
    clause, and in the prompt that clause is a function of the style
    alone. *)
Theorem style_fallback :
  (forall style, ~ In style knownStyles ->
     getStyleInstruction style = getStyleInstruction (lit "Enchanted")) /\
  (getStyleInstruction (lit "Realistic") =
     lit "in a photorealistic, cinematic style, as if it were a still from a live-action movie" /\
   getStyleInstruction (lit "Anime") =
     lit "in a vibrant Japanese anime style, with characteristic large eyes, expressive features, and dynamic lines" /\
   getStyleInstruction (lit "J-Art") =
     lit "in a beautiful, painterly Japanese art style, similar to concept art for a fantasy JRPG" /\
   getStyleInstruction (lit "Exaggerated") =
     lit "in a heavily exaggerated caricature style, amplifying the subject's expression and features for comedic effect" /\
   getStyleInstruction (lit "Comical") =
     lit "in a goofy, comical cartoon style with bright colors and simplified, funny shapes" /\
   getStyleInstruction (lit "Enchanted") =
     lit "in the classic Disney animation style, reminiscent of films like 'The Little Mermaid' or 'Aladdin'") /\
  (forall memeText description redrawIntensity style,
     fullPrompt memeText description redrawIntensity style =
     opening ++ getStyleInstruction style ++ lit ". "
       ++ descriptionInstruction description ++ lit " "
       ++ getIntensityInstruction redrawIntensity ++ lit " "
       ++ textInstruction memeText ++ closing).
Proof.
  split; [|split].
  - intros style Hn.
    assert (E : getStyleInstruction (lit "Enchanted") =
                lit "in the classic Disney animation style, reminiscent of films like 'The Little Mermaid' or 'Aladdin'")
      by reflexivity.
    rewrite E. unfold getStyleInstruction.
    repeat match goal with
           | |- context [if str_eqb style ?l then _ else _] =>
               let H := fresh "H" in
               destruct (str_eqb style l) eqn:H;
               [ apply str_eqb_eq in H; exfalso; apply Hn; rewrite H;
                 unfold knownStyles; simpl; tauto | clear H ]
           end.
    reflexivity.
  - repeat split.
  - reflexivity.
Qed.

Lemma style_fallback_witness :
  ~ In (lit "Pixar") knownStyles /\
  getStyleInstruction (lit "Pixar") = getStyleInstruction (lit "Enchanted").
Proof.
  assert (Hn : ~ In (lit "Pixar") knownStyles).
  { unfold knownStyles; simpl.
    intros H; repeat destruct H as [H|H]; try discriminate H; exact H. }
  split; [exact Hn|].
  apply (proj1 style_fallback). exact Hn.
Defined.

(** A property of the two computed clauses holds for every style and
    intensity once it holds for the six style clauses and the three
    intensity clauses. *)
Lemma by_clause_cases (P : jsstring -> jsstring -> Prop) :
  Forall (fun S => Forall (P S) [subtleClause; balancedClause; heavyClause])
         (List.map getStyleInstruction knownStyles) ->
  forall style n, P (getStyleInstruction style) (getIntensityInstruction n).
Proof.
  intros H style n.
  rewrite Forall_forall in H.
  specialize (H _ (style_clause_cases style)).
  rewrite Forall_forall in H.
  exact (H _ (intensity_clause_cases n)).
Qed.

(** Settle a goal about [getStyleInstruction style] and
    [getIntensityInstruction n] by evaluating it on every clause. *)
Ltac each_clause style n :=
  pattern (getStyleInstruction style), (getIntensityInstruction n);
  match goal with
  | |- ?P (getStyleInstruction style) (getIntensityInstruction n) =>
      apply (@by_clause_cases P)
  end;
  repeat constructor; vm_compute; reflexivity.

Lemma includes_quoted (p a u b : jsstring) :
  ~ In 34%N p ->
  includes (a ++ dquote ++ u ++ dquote ++ b) p =
  includes a p || includes u p || includes b p.
Proof.
  intros Hq. unfold dquote. simpl.
  rewrite (@includes_split_at 34%N p a (u ++ 34%N :: b) Hq).
  rewrite (@includes_split_at 34%N p u b Hq).
  now rewrite orb_assoc.
Qed.

Lemma captionHead_unquoted : ~ In 34%N captionHead.
Proof. vm_compute. intuition discriminate. Qed.

Lemma moodHead_unquoted : ~ In 34%N moodHead.
Proof. vm_compute. intuition discriminate. Qed.

Lemma prompt_blank_blank style n (m : jsstring) :
  m = captionHead \/ m = moodHead ->
  includes (opening ++ getStyleInstruction style ++ lit ". " ++ [] ++ lit " "
              ++ getIntensityInstruction n ++ lit " " ++ [] ++ closing) m
  = false.
Proof. intros [->| ->]; each_clause style n. Qed.

Lemma before_description style :
  includes (opening ++ getStyleInstruction style ++ lit ". " ++ moodHead)
    captionHead = false.
Proof. each_clause style NaN. Qed.

Lemma after_description n :
  includes (lit "." ++ lit " " ++ getIntensityInstruction n ++ lit " "
              ++ [] ++ closing) captionHead = false.
Proof. each_clause (@nil N) n. Qed.

Lemma before_caption style n :
  includes (opening ++ getStyleInstruction style ++ lit ". " ++ [] ++ lit " "
              ++ getIntensityInstruction n ++ lit " " ++ captionHead) moodHead
  = false.
Proof. each_clause style n. Qed.

Lemma after_caption :
  includes (captionTail ++ closing) moodHead = false.
Proof. vm_compute. reflexivity. Qed.

Lemma textInstruction_cases (memeText : jsstring) :
  (trim memeText <> [] /\ textInstruction memeText = captionClause memeText)
  \/ (trim memeText = [] /\ textInstruction memeText = []).
Proof.
  unfold textInstruction. destruct (trim memeText) eqn:E; simpl.
  - right. now split.
  - left. split; [discriminate | reflexivity].
Qed.

Lemma descriptionInstruction_cases (description : jsstring) :
  (trim description <> [] /\
   descriptionInstruction description = moodClause description)
  \/ (trim description = [] /\ descriptionInstruction description = []).
Proof.
  unfold descriptionInstruction. destruct (trim description) eqn:E; simpl.
  - right. now split.
  - left. split; [discriminate | reflexivity].
Qed.

Lemma prompt_shape memeText description redrawIntensity style :
  fullPrompt memeText description redrawIntensity style =
  opening ++ getStyleInstruction style ++ lit ". "
    ++ descriptionInstruction description ++ lit " "
    ++ getIntensityInstruction redrawIntensity ++ lit " "
    ++ textInstruction memeText ++ closing.
Proof. reflexivity. Qed.

Ltac reassoc := repeat rewrite <- app_assoc; reflexivity.

Lemma around_caption_head (S D I c : jsstring) :
  opening ++ S ++ lit ". " ++ D ++ lit " " ++ I ++ lit " "
    ++ captionClause c ++ closing =
  (opening ++ S ++ lit ". " ++ D ++ lit " " ++ I ++ lit " ")
    ++ captionHead ++ (dquote ++ c ++ dquote ++ captionTail ++ closing).
Proof. unfold captionClause. reassoc. Qed.

Lemma around_mood_head (S d I T : jsstring) :
  opening ++ S ++ lit ". " ++ moodClause d ++ lit " " ++ I ++ lit " "
    ++ T ++ closing =
  (opening ++ S ++ lit ". ")
    ++ moodHead ++ (dquote ++ d ++ dquote ++ lit "." ++ lit " " ++ I
                      ++ lit " " ++ T ++ closing).
Proof. unfold moodClause. reassoc. Qed.

Lemma around_description (S d I : jsstring) :
  opening ++ S ++ lit ". " ++ moodClause d ++ lit " " ++ I ++ lit " "
    ++ [] ++ closing =
  (opening ++ S ++ lit ". " ++ moodHead) ++ dquote ++ d ++ dquote
    ++ (lit "." ++ lit " " ++ I ++ lit " " ++ [] ++ closing).
Proof. unfold moodClause. reassoc. Qed.

Lemma around_caption (S I c : jsstring) :
  opening ++ S ++ lit ". " ++ [] ++ lit " " ++ I ++ lit " "
    ++ captionClause c ++ closing =
  (opening ++ S ++ lit ". " ++ [] ++ lit " " ++ I ++ lit " " ++ captionHead)
    ++ dquote ++ c ++ dquote ++ (captionTail ++ closing).
Proof. unfold captionClause. reassoc. Qed.

Lemma caption_head_search memeText description redrawIntensity style :
  includes description captionHead = false ->
  (includes (fullPrompt memeText description redrawIntensity style) captionHead
   = true <-> trim memeText <> []).
Proof.
  intros Hd. rewrite prompt_shape.
  destruct (textInstruction_cases memeText) as [[Hc ->]|[Hc ->]].
  - split; [intros _; exact Hc | intros _].
    rewrite around_caption_head. apply includes_app.
  - split; [|intros H; contradiction].
    intros H. exfalso. revert H.
    destruct (descriptionInstruction_cases description) as [[_ ->]|[_ ->]].
    + rewrite around_description.
      rewrite (@includes_quoted captionHead _ _ _ captionHead_unquoted), Hd.
      rewrite before_description, after_description. discriminate.
    + rewrite prompt_blank_blank by now left. discriminate.
Qed.

Lemma mood_head_search memeText description redrawIntensity style :
  includes memeText moodHead = false ->
  (includes (fullPrompt memeText description redrawIntensity style) moodHead
   = true <-> trim description <> []).
Proof.
  intros Hc. rewrite prompt_shape.
  destruct (descriptionInstruction_cases description) as [[Hd ->]|[Hd ->]].
  - split; [intros _; exact Hd | intros _].
    rewrite around_mood_head. apply includes_app.
  - split; [|intros H; contradiction].
    intros H. exfalso. revert H.
    destruct (textInstruction_cases memeText) as [[_ ->]|[_ ->]].
    + rewrite around_caption.
      rewrite (@includes_quoted moodHead _ _ _ moodHead_unquoted), Hc.
      rewrite before_caption, after_caption. discriminate.
    + rewrite prompt_blank_blank by now right. discriminate.
Qed.

Lemma captionClause_nonempty (c : jsstring) : captionClause c <> [].
Proof. discriminate. Qed.

Lemma moodClause_nonempty (d : jsstring) : moodClause d <> [].
Proof. discriminate. Qed.

(** C8. The caption clause is in the instruction exactly when the caption
    is not empty after trimming, and the description clause exactly when
    the description is not: the builder's slot for each holds the clause
    for a non-blank text and nothing for a blank one; a present clause
    occurs in the prompt in full; and, the other text not quoting the
    clause's opening words itself, those words occur in the prompt if and
    only if the clause's own text is non-blank. *)
Theorem clause_iff_nonblank memeText description redrawIntensity style :
  let prompt := fullPrompt memeText description redrawIntensity style in
  (textInstruction memeText = captionClause memeText <-> trim memeText <> [])
  /\ (trim memeText = [] -> textInstruction memeText = [])
  /\ (descriptionInstruction description = moodClause description
        <-> trim description <> [])
  /\ (trim description = [] -> descriptionInstruction description = [])
  /\ (trim memeText <> [] -> includes prompt (captionClause memeText) = true)
  /\ (trim description <> [] ->
        includes prompt (moodClause description) = true)
  /\ (includes description captionHead = false ->
        (includes prompt captionHead = true <-> trim memeText <> []))
  /\ (includes memeText moodHead = false ->
        (includes prompt moodHead = true <-> trim description <> [])).
Proof.
  intros prompt. subst prompt.
  repeat match goal with |- _ /\ _ => split end.
  - destruct (textInstruction_cases memeText) as [[H ->]|[H ->]].
    + tauto.
    + split; [intros E; symmetry in E; now apply captionClause_nonempty in E
             | intros C; contradiction].
  - destruct (textInstruction_cases memeText) as [[H ->]|[H ->]];
      [intros C; contradiction | reflexivity].
  - destruct (descriptionInstruction_cases description) as [[H ->]|[H ->]].
    + tauto.
    + split; [intros E; symmetry in E; now apply moodClause_nonempty in E
             | intros C; contradiction].
  - destruct (descriptionInstruction_cases description) as [[H ->]|[H ->]];
      [intros C; contradiction | reflexivity].
  - intros H. rewrite prompt_shape.
    destruct (textInstruction_cases memeText) as [[_ ->]|[C _]];
      [|contradiction].
    rewrite !app_assoc, <- app_assoc. apply includes_app.
  - intros H. rewrite prompt_shape.
    destruct (descriptionInstruction_cases description) as [[_ ->]|[C _]];
      [|contradiction].
    rewrite (app_assoc opening), (app_assoc (opening ++ _)).
    apply includes_app.
  - apply caption_head_search.
  - apply mood_head_search.
Qed.

Lemma clause_iff_nonblank_witness :
  trim (lit " hello ") <> [] /\ trim (lit "  ") = [] /\
  includes (lit "  ") captionHead = false /\
  includes (lit " hello ") moodHead = false /\
  textInstruction (lit " hello ") = captionClause (lit " hello ") /\
  descriptionInstruction (lit "  ") = [] /\
  includes (fullPrompt (lit " hello ") (lit "  ") (of_Z 50) (lit "Anime"))
    captionHead = true /\
  ~ includes (fullPrompt (lit " hello ") (lit "  ") (of_Z 50) (lit "Anime"))
      moodHead = true.
Proof.
  assert (Hc : trim (lit " hello ") <> []) by (vm_compute; discriminate).
  assert (Hd : trim (lit "  ") = []) by (vm_compute; reflexivity).
  assert (Id : includes (lit "  ") captionHead = false)
    by (vm_compute; reflexivity).
  assert (Ic : includes (lit " hello ") moodHead = false)
    by (vm_compute; reflexivity).
  pose proof (clause_iff_nonblank (lit " hello ") (lit "  ") (of_Z 50)
                (lit "Anime")) as T.
  cbv zeta in T.
  destruct T as (T1 & _ & _ & T4 & _ & _ & T7 & T8).
  split; [exact Hc|]. split; [exact Hd|]. split; [exact Id|].
  split; [exact Ic|]. split; [apply T1, Hc|]. split; [apply T4, Hd|].
  split; [apply (T7 Id), Hc|].
  intros H. apply (T8 Ic) in H. apply H, Hd.
Defined.

End BuilderSpec.

(* ================================================================== *)
(** ** The timeout race and the response extraction *)

Module GenerateSpec.

Import GeminiService Spec JSFacts.

(** *** withTimeout *)

Lemma settled_stays {T} (ms : N) (events : list (Event T)) (st : Race T)
    (s : Settled T) :
  outer st = Some s -> outer (fold_left (step ms) events st) = Some s.
Proof.
  revert st; induction events as [|e events IH]; intros st H; simpl; [exact H|].
  apply IH. destruct e; simpl.
  - destruct (timerArmed st); simpl; [now rewrite H | exact H].
  - now rewrite H.
Qed.

(** Once the timer callback has run first, nothing that happens later
    changes the outcome. *)
Lemma timer_first {T} (ms : N) (later : list (Event T)) :
  outer (run ms (TimerFires :: later)) = Some (Rejected (timeoutReason ms)).
Proof. unfold run; simpl. now apply settled_stays. Qed.

Lemma inner_first {T} (ms : N) (s : Settled T) (later : list (Event T)) :
  outer (run ms (InnerSettles s :: later)) = Some s.
Proof. unfold run; simpl. now apply settled_stays. Qed.

Lemma timerDelay_small (ms : N) :
  (ms < 2147483648)%N -> timerDelay ms = ms.
Proof.
  intros H. unfold timerDelay.
  rewrite N.mod_small by lia.
  apply N.ltb_lt in H. now rewrite H.
Qed.

Lemma timerDelay_le (ms : N) : (timerDelay ms <= ms)%N.
Proof.
  unfold timerDelay.
  destruct (N.ltb (ms mod 4294967296) 2147483648); [|lia].
  apply N.Div0.mod_le.
Qed.

Lemma withTimeout_before {T} (tie : bool) (t ms : N) (s : Settled T) :
  (t < timerDelay ms)%N -> withTimeout tie (SettlesAt t s) ms = Some s.
Proof.
  intros H. unfold withTimeout, timeline.
  apply N.ltb_lt in H. rewrite H. apply inner_first.
Qed.

Lemma withTimeout_after {T} (tie : bool) (t ms : N) (s : Settled T) :
  (timerDelay ms < t)%N ->
  withTimeout tie (SettlesAt t s) ms = Some (Rejected (timeoutReason ms)).
Proof.
  intros H. unfold withTimeout, timeline.
  assert (E1 : N.ltb t (timerDelay ms) = false) by (apply N.ltb_ge; lia).
  assert (E2 : N.eqb t (timerDelay ms) = false) by (apply N.eqb_neq; lia).
  rewrite E1, E2. apply timer_first.
Qed.

(** At the delay the code uses. *)
Lemma withTimeout_in_time {T} (tie : bool) (t : N) (s : Settled T) :
  (t < 120000)%N -> withTimeout tie (SettlesAt t s) 120000 = Some s.
Proof. intros H. now apply withTimeout_before. Qed.

Lemma withTimeout_late {T} (tie : bool) (t : N) (s : Settled T) :
  (120000 < t)%N ->
  withTimeout tie (SettlesAt t s) 120000
  = Some (Rejected (timeoutReason 120000)).
Proof. intros H. now apply withTimeout_after. Qed.

Lemma withTimeout_never {T} (tie : bool) (ms : N) :
  withTimeout tie (@NeverSettles T) ms = Some (Rejected (timeoutReason ms)).
Proof. reflexivity. Qed.

(** The wrapped promise always settles. *)
Lemma withTimeout_settles {T} (tie : bool) (promise : Promise T) (ms : N) :
  withTimeout tie promise ms <> None.
Proof.
  destruct promise as [|t s]; [discriminate|].
  unfold withTimeout, timeline.
  destruct (N.ltb t (timerDelay ms) || (N.eqb t (timerDelay ms) && negb tie)).
  - now rewrite inner_first.
  - now rewrite timer_first.
Qed.

Lemma timeoutReason_120s :
  timeoutReason 120000 = ErrorObj (lit "Request timed out after 120 seconds.").
Proof. reflexivity. Qed.

(** The timer's own error is recognised by the [catch] clause, whatever
    the delay. *)
Lemma timeout_classified (ms : N) :
  catchClause (timeoutReason ms) = ErrorObj timedOutMessage.
Proof.
  unfold timeoutReason, catchClause.
  replace (lit "Request timed out after " ++ secondsText ms ++ lit " seconds.")
    with (lit "Request " ++ lit "timed out"
            ++ (lit " after " ++ secondsText ms ++ lit " seconds."))
    by reflexivity.
  now rewrite includes_app.
Qed.

(** *** The scan of the response *)

Lemma imagePart_partsOf response :
  imagePart response = List.find hasInlineData (partsOf response).
Proof. unfold imagePart, partsOf. now destruct (firstParts response). Qed.

Lemma textPart_partsOf response :
  textPart response = List.find hasText (partsOf response).
Proof. unfold textPart, partsOf. now destruct (firstParts response). Qed.

Lemma hasInlineData_false (q : Genai.Part) :
  hasInlineData q = false <-> Genai.inlineData q = None.
Proof. unfold hasInlineData. destruct (Genai.inlineData q); split; congruence. Qed.

Lemma extract_image response part blob :
  firstWith hasInlineData (partsOf response) part ->
  Genai.inlineData part = Some blob ->
  extract response =
  Returned {| base64 := Genai.data blob; mimeType := Genai.mimeType blob |}.
Proof.
  intros F E. apply find_firstWith in F.
  unfold extract. now rewrite imagePart_partsOf, F, E.
Qed.

Lemma extract_text response part s :
  (forall q, In q (partsOf response) -> Genai.inlineData q = None) ->
  firstWith hasText (partsOf response) part ->
  Genai.text part = Some s ->
  extract response =
  Threw (ErrorObj (lit "Model returned text instead of an image: " ++ s)).
Proof.
  intros NoImg F E.
  assert (Ht : hasText part = true) by (destruct F as (? & ? & _ & _ & H); exact H).
  apply find_firstWith in F.
  assert (I : List.find hasInlineData (partsOf response) = None).
  { apply JSFacts.find_none. intros q Hq. now apply hasInlineData_false, NoImg. }
  unfold extract. rewrite imagePart_partsOf, I, textPart_partsOf, F, E.
  unfold hasText in Ht. rewrite E in Ht. now rewrite Ht.
Qed.

Lemma extract_empty response :
  (forall q, In q (partsOf response) -> Genai.inlineData q = None) ->
  (forall q, In q (partsOf response) -> hasText q = false) ->
  extract response =
  Threw (ErrorObj (lit "No image data found in the API response.")).
Proof.
  intros NoImg NoTxt.
  assert (I : List.find hasInlineData (partsOf response) = None).
  { apply JSFacts.find_none. intros q Hq. now apply hasInlineData_false, NoImg. }
  assert (X : List.find hasText (partsOf response) = None)
    by now apply JSFacts.find_none.
  unfold extract. now rewrite imagePart_partsOf, I, textPart_partsOf, X.
Qed.

(** [generateMemeImage] when the service settles before the timer. *)
Lemma generate_in_time ai b64 mime memeText description n style t s :
  Genai.generateContent ai (request b64 mime memeText description n style)
  = SettlesAt t s ->
  (t < 120000)%N ->
  generateMemeImage ai b64 mime memeText description n style =
  match s with
  | Fulfilled response =>
      match extract response with
      | Returned image => Some (Fulfilled image)
      | Threw error => Some (Rejected (catchClause error))
      | Hangs => None
      end
  | Rejected reason => Some (Rejected (catchClause reason))
  end.
Proof.
  intros E Ht. unfold generateMemeImage, tryBlock.
  rewrite E, (@withTimeout_in_time _ (Genai.timersFirst ai) t s Ht).
  now destruct s.
Qed.

Lemma refusal_search (s : jsstring) :
  includes (lit "Model returned text instead of an image: " ++ s)
    (lit "timed out")
  = includes s (lit "timed out").
Proof.
  replace (lit "Model returned text instead of an image: " ++ s)
    with (lit "Model returned text instead of an image" ++ 58%N :: 32%N :: s)
    by reflexivity.
  rewrite includes_split_at by (vm_compute; intuition discriminate).
  rewrite (includes_eq (32%N :: s)).
  reflexivity.
Qed.

(** *** Timeout *)

(** C1. Whatever the request, when the service call has not settled
    within 120 seconds (it never settles, or settles later than 120000 ms),
    [generateMemeImage] does not stay pending: the race against the
    120000 ms timer rejects with the timer's error, which the boundary
    reports as the timed-out message; once the timer has fired first, no
    later result of the call changes the outcome. *)
Theorem generate_times_out ai b64 mime memeText description n style :
  let promise :=
    Genai.generateContent ai (request b64 mime memeText description n style) in
  promise = NeverSettles \/
    (exists t s, promise = SettlesAt t s /\ (120000 < t)%N) ->
  withTimeout (Genai.timersFirst ai) promise 120000 =
    Some (Rejected (ErrorObj (lit "Request timed out after 120 seconds."))) /\
  generateMemeImage ai b64 mime memeText description n style =
    Some (Rejected (ErrorObj
      (lit "Image generation timed out. The image may be too complex. Please try again with a different image."))) /\
  (forall later : list (Event Genai.GenerateContentResponse),
     outer (run 120000 (TimerFires :: later)) =
     Some (Rejected (ErrorObj (lit "Request timed out after 120 seconds.")))).
Proof.
  intros promise H.
  assert (W : withTimeout (Genai.timersFirst ai) promise 120000 =
              Some (Rejected (timeoutReason 120000))).
  { destruct H as [->|(t & s & -> & Ht)];
      [apply withTimeout_never | now apply withTimeout_late]. }
  split; [|split].
  - now rewrite W, timeoutReason_120s.
  - unfold generateMemeImage, tryBlock. fold promise. rewrite W.
    now rewrite timeout_classified.
  - intros later. now rewrite timer_first, timeoutReason_120s.
Qed.

Lemma generate_times_out_witness :
  generateMemeImage (answers 150000 (Fulfilled (replyWith [imageOnly samplePng])))
    (lit "aGk=") (lit "image/png") (lit "hello") [] (of_Z 50) (lit "Anime")
  = Some (Rejected (ErrorObj
      (lit "Image generation timed out. The image may be too complex. Please try again with a different image."))).
Proof.
  apply (@generate_times_out
           (answers 150000 (Fulfilled (replyWith [imageOnly samplePng])))
           (lit "aGk=") (lit "image/png") (lit "hello") [] (of_Z 50)
           (lit "Anime")).
  right. exists 150000%N, (Fulfilled (replyWith [imageOnly samplePng])).
  split; [reflexivity | reflexivity].
Defined.

(** *** Extraction *)

(** C4. When the response the service delivers has, among the content
    parts of its first candidate, a part with inline data, generation
    resolves with the data and MIME type of the first such part in the
    order of the parts. *)
Theorem generate_returns_first_image
    ai b64 mime memeText description n style t response :
  Genai.generateContent ai (request b64 mime memeText description n style)
  = SettlesAt t (Fulfilled response) ->
  (t < 120000)%N ->
  (exists q, In q (partsOf response) /\ Genai.inlineData q <> None) ->
  exists part blob,
    firstWith hasInlineData (partsOf response) part /\
    Genai.inlineData part = Some blob /\
    generateMemeImage ai b64 mime memeText description n style =
    Some (Fulfilled {| base64 := Genai.data blob;
                       mimeType := Genai.mimeType blob |}).
Proof.
  intros E Ht (q & Hq & Hd).
  destruct (List.find hasInlineData (partsOf response)) as [part|] eqn:F.
  - apply find_firstWith in F.
    assert (Hp : hasInlineData part = true)
      by (destruct F as (? & ? & _ & _ & H); exact H).
    unfold hasInlineData in Hp.
    destruct (Genai.inlineData part) as [blob|] eqn:B; [|discriminate].
    exists part, blob. split; [exact F|]. split; [exact B|].
    rewrite (generate_in_time _ _ _ _ _ _ _ E Ht).
    now rewrite (extract_image _ F B).
  - exfalso. apply Hd, hasInlineData_false.
    exact (proj1 (JSFacts.find_none _ _) F q Hq).
Qed.

Lemma generate_returns_first_image_witness :
  let response :=
    replyWith [textOnly (lit "Here you go"); imageOnly sampleJpeg;
               imageOnly samplePng] in
  exists part blob,
    firstWith hasInlineData (partsOf response) part /\
    Genai.inlineData part = Some blob /\
    generateMemeImage (answers 4000 (Fulfilled response))
      (lit "aGk=") (lit "image/png") (lit "hello") [] (of_Z 50) (lit "Anime")
    = Some (Fulfilled {| base64 := Genai.data blob;
                         mimeType := Genai.mimeType blob |}).
Proof.
  intros response.
  apply (@generate_returns_first_image
           (answers 4000 (Fulfilled response))
           (lit "aGk=") (lit "image/png") (lit "hello") [] (of_Z 50)
           (lit "Anime") 4000%N response).
  - reflexivity.
  - reflexivity.
  - exists (imageOnly sampleJpeg). split; [simpl; tauto | discriminate].
Defined.

(** The first image part wins, text parts before it and image parts after
    it notwithstanding. *)
Example first_image_of_three :
  generateMemeImage
    (answers 4000 (Fulfilled (replyWith [textOnly (lit "Here you go");
                                         imageOnly sampleJpeg;
                                         imageOnly samplePng])))
    (lit "aGk=") (lit "image/png") (lit "hello") [] (of_Z 50) (lit "Anime")
  = Some (Fulfilled {| base64 := lit "/9j/4AAQSkZJRg==";
                       mimeType := lit "image/jpeg" |}).
Proof. vm_compute. reflexivity. Qed.

(** A delivered response without an image part, as the code treats it.
    When the response has no part with inline data among the content parts
    of its first candidate, generation rejects.  If some part has a
    non-empty text, the message is
    "API Error: Model returned text instead of an image: " followed by the
    text of the first such part, unless that text contains "timed out", in
    which case the message is the timed-out message; if no part has a
    non-empty text, the message is
    "API Error: No image data found in the API response.". *)
Lemma generate_rejects_without_image
    ai b64 mime memeText description n style t response :
  Genai.generateContent ai (request b64 mime memeText description n style)
  = SettlesAt t (Fulfilled response) ->
  (t < 120000)%N ->
  (forall q, In q (partsOf response) -> Genai.inlineData q = None) ->
  (forall part s,
     firstWith hasText (partsOf response) part ->
     Genai.text part = Some s ->
     (includes s (lit "timed out") = false ->
      generateMemeImage ai b64 mime memeText description n style =
      Some (Rejected (ErrorObj
        (lit "API Error: Model returned text instead of an image: " ++ s))))
     /\
     (includes s (lit "timed out") = true ->
      generateMemeImage ai b64 mime memeText description n style =
      Some (Rejected (ErrorObj timedOutMessage)))) /\
  ((forall q, In q (partsOf response) -> hasText q = false) ->
   generateMemeImage ai b64 mime memeText description n style =
   Some (Rejected (ErrorObj
     (lit "API Error: No image data found in the API response.")))).
Proof.
  intros E Ht NoImg.
  rewrite (generate_in_time _ _ _ _ _ _ _ E Ht).
  split.
  - intros part s F Hs.
    rewrite (extract_text _ NoImg F Hs).
    unfold catchClause. rewrite refusal_search.
    split; intros ->; reflexivity.
  - intros NoTxt. now rewrite (extract_empty _ NoImg NoTxt).
Qed.

(** C5. The claim fails on the code at a refusal whose text contains
    "timed out".  The service answers after 4000 ms with one part, the text
    "The caption says the meeting timed out, which I cannot draw."; there
    is no image part, the code raises the refusal with the text, and the
    [catch] clause takes it for the timer's error: generation rejects with
    the timed-out message, which does not carry the text, and not with the
    refusal message the claim describes.  A refusal without those words,
    "I cannot draw that.", is embedded verbatim. *)
Lemma refusal_text_not_embedded :
  let response := replyWith [textOnly refusalAboutMeeting] in
  let ai := answers 4000 (Fulfilled response) in
  refusalAboutMeeting
  = lit "The caption says the meeting timed out, which I cannot draw." /\
  (forall q, In q (partsOf response) -> Genai.inlineData q = None) /\
  firstWith hasText (partsOf response) (textOnly refusalAboutMeeting) /\
  tryBlock ai (lit "aGk=") (lit "image/png") (lit "hello") [] (of_Z 50)
    (lit "Anime")
  = Threw (ErrorObj (lit "Model returned text instead of an image: "
                       ++ refusalAboutMeeting)) /\
  generateMemeImage ai (lit "aGk=") (lit "image/png") (lit "hello") []
    (of_Z 50) (lit "Anime")
  = Some (Rejected (ErrorObj
      (lit "Image generation timed out. The image may be too complex. Please try again with a different image."))) /\
  includes
    (lit "Image generation timed out. The image may be too complex. Please try again with a different image.")
    refusalAboutMeeting = false /\
  generateMemeImage
    (answers 4000 (Fulfilled (replyWith [textOnly (lit "I cannot draw that.")])))
    (lit "aGk=") (lit "image/png") (lit "hello") [] (of_Z 50) (lit "Anime")
  = Some (Rejected (ErrorObj
      (lit "API Error: Model returned text instead of an image: I cannot draw that."))).
Proof.
  intros response ai.
  split; [reflexivity|]. split; [|split].
  - intros q [<-|[]]; reflexivity.
  - exists [], []. split; [reflexivity|]. split; [intros q []|reflexivity].
  - repeat split; vm_compute; reflexivity.
Qed.

(** *** The boundary *)

Lemma generate_settles ai b64 mime memeText description n style :
  generateMemeImage ai b64 mime memeText description n style <> None.
Proof.
  unfold generateMemeImage, tryBlock.
  pose proof (@withTimeout_settles _ (Genai.timersFirst ai)
                (Genai.generateContent ai
                   (request b64 mime memeText description n style)) 120000) as W.
  destruct (withTimeout _ _ _) as [[response|reason]|]; [| discriminate | contradiction].
  unfold extract.
  destruct (match imagePart response with
            | Some part => Genai.inlineData part | None => None end);
    [discriminate|].
  destruct (match textPart response with
            | Some part => match Genai.text part with
                           | Some s => if truthy s then Some s else None
                           | None => None end
            | None => None end); discriminate.
Qed.

(** The boundary, as the code has it. Generation always settles, and every
    rejection is an [Error] whose message has one of three forms, chosen
    from the value the [catch] clause receives: the timed-out message for
    an [Error] whose message contains "timed out", "API Error: " followed
    by the original message for any other [Error], and the unknown-error
    message for a value that is not an [Error].  The timer's own error, for
    any delay, falls under the first form. *)
Lemma rejection_forms ai b64 mime memeText description n style :
  generateMemeImage ai b64 mime memeText description n style <> None /\
  (forall reason,
     generateMemeImage ai b64 mime memeText description n style
     = Some (Rejected reason) ->
     exists error,
       tryBlock ai b64 mime memeText description n style = Threw error /\
       match error with
       | ErrorObj message =>
           (includes message (lit "timed out") = true /\
            reason = ErrorObj timedOutMessage) \/
           (includes message (lit "timed out") = false /\
            reason = ErrorObj (lit "API Error: " ++ message))
       | NonError _ => reason = ErrorObj unknownMessage
       end) /\
  (forall ms, catchClause (timeoutReason ms) = ErrorObj timedOutMessage).
Proof.
  split; [apply generate_settles|]. split; [|apply timeout_classified].
  intros reason. unfold generateMemeImage.
  destruct (tryBlock ai b64 mime memeText description n style)
    as [image|error|]; try discriminate.
  intros [= <-]. exists error. split; [reflexivity|].
  destruct error as [message|shown]; simpl; [|reflexivity].
  destruct (includes message (lit "timed out")); [left | right]; now split.
Qed.

(** C6. The claim fails on the code at a refusal whose text contains
    "timed out".  The service answers after 4000 ms, well before the 120 s
    timer, so the cause of the failure is no time-out: the only part is the
    text "I will not depict a player being timed out by a referee." and the
    code raises an [Error] for it.  By the claim this other [Error]
    becomes "API Error: " followed by its message; the code reports the
    timed-out message instead, as the substring test of the [catch] clause
    takes the refusal for the timer's error. *)
Lemma refusal_reported_as_timeout :
  let response := replyWith [textOnly refusalAboutReferee] in
  let ai := answers 4000 (Fulfilled response) in
  let original :=
    lit "Model returned text instead of an image: I will not depict a player being timed out by a referee." in
  refusalAboutReferee
  = lit "I will not depict a player being timed out by a referee." /\
  withTimeout (Genai.timersFirst ai)
    (Genai.generateContent ai
       (request (lit "aGk=") (lit "image/png") (lit "hello") [] (of_Z 50)
          (lit "Anime"))) 120000
  = Some (Fulfilled response) /\
  tryBlock ai (lit "aGk=") (lit "image/png") (lit "hello") [] (of_Z 50)
    (lit "Anime") = Threw (ErrorObj original) /\
  generateMemeImage ai (lit "aGk=") (lit "image/png") (lit "hello") []
    (of_Z 50) (lit "Anime")
  = Some (Rejected (ErrorObj
      (lit "Image generation timed out. The image may be too complex. Please try again with a different image."))) /\
  generateMemeImage ai (lit "aGk=") (lit "image/png") (lit "hello") []
    (of_Z 50) (lit "Anime")
  <> Some (Rejected (ErrorObj (lit "API Error: " ++ original))).
Proof.
  intros response ai original.
  split; [reflexivity|]. split; [reflexivity|].
  split; [vm_compute; reflexivity|].
  split; [vm_compute; reflexivity|].
  vm_compute. discriminate.
Qed.

(** *** Out-of-range intensities *)

(** C10. The intensity clause is defined for every number: below 0 it is
    the subtle clause, above 100 the heavy-redraw clause, and for any
    number at all (NaN and the infinities included) one of the three; so
    composing the prompt cannot fail, and whenever the service delivers an
    image in time generation resolves with it, whatever the intensity. *)
Theorem intensity_total (n : JSNumber) :
  let subtle :=
    lit "Subtly apply the style, making minimal changes to the original image's structure and preserving the subject's facial features as closely as possible." in
  let balanced :=
    lit "Apply a balanced style, preserving the core facial features of the subject while clearly transforming the overall aesthetic." in
  let heavy :=
    lit "Heavily redraw the image in the style, retaining only the most essential facial characteristics (like eye position and basic expression) while transforming everything else significantly." in
  (num_lt n (of_Z 0) = true -> getIntensityInstruction n = subtle) /\
  (num_lt (of_Z 100) n = true -> getIntensityInstruction n = heavy) /\
  In (getIntensityInstruction n) [subtle; balanced; heavy] /\
  (forall ai b64 mime memeText description style t response image,
     Genai.generateContent ai (request b64 mime memeText description n style)
     = SettlesAt t (Fulfilled response) ->
     (t < 120000)%N ->
     extract response = Returned image ->
     generateMemeImage ai b64 mime memeText description n style
     = Some (Fulfilled image)).
Proof.
  intros subtle balanced heavy.
  change subtle with subtleClause. change balanced with balancedClause.
  change heavy with heavyClause. clear subtle balanced heavy.
  split; [|split; [|split]].
  - unfold getIntensityInstruction, of_Z.
    destruct n as [q| | |]; simpl; try discriminate; [|reflexivity].
    intros H. now rewrite (@BuilderSpec.below_zero_le q 33) by (lia || exact H).
  - unfold getIntensityInstruction, of_Z.
    destruct n as [q| | |]; simpl; try discriminate; [|reflexivity].
    intros H.
    rewrite (@BuilderSpec.above_hundred_gt q 33) by (lia || exact H).
    now rewrite (@BuilderSpec.above_hundred_gt q 66) by (lia || exact H).
  - apply BuilderSpec.intensity_clause_cases.
  - intros ai b64 mime memeText description style t response image E Ht X.
    rewrite (generate_in_time _ _ _ _ _ _ _ E Ht). now rewrite X.
Qed.

Lemma intensity_total_witness :
  getIntensityInstruction (of_Z (-5)) =
  lit "Subtly apply the style, making minimal changes to the original image's structure and preserving the subject's facial features as closely as possible." /\
  getIntensityInstruction (Finite (1001 # 10)) =
  lit "Heavily redraw the image in the style, retaining only the most essential facial characteristics (like eye position and basic expression) while transforming everything else significantly." /\
  getIntensityInstruction PosInf =
  lit "Heavily redraw the image in the style, retaining only the most essential facial characteristics (like eye position and basic expression) while transforming everything else significantly." /\
  generateMemeImage (answers 4000 (Fulfilled (replyWith [imageOnly samplePng])))
    (lit "aGk=") (lit "image/png") (lit "hello") [] (of_Z 250) (lit "Anime")
  = Some (Fulfilled {| base64 := Genai.data samplePng;
                       mimeType := Genai.mimeType samplePng |}).
Proof.
  split; [|split; [|split]].
  - apply (proj1 (intensity_total (of_Z (-5)))). reflexivity.
  - apply (proj1 (proj2 (intensity_total (Finite (1001 # 10))))). reflexivity.
  - apply (proj1 (proj2 (intensity_total PosInf))). reflexivity.
  - apply (proj2 (proj2 (proj2 (intensity_total (of_Z 250))))
             (answers 4000 (Fulfilled (replyWith [imageOnly samplePng])))
             (lit "aGk=") (lit "image/png") (lit "hello") [] (lit "Anime")
             4000%N (replyWith [imageOnly samplePng])).
    + reflexivity.
    + reflexivity.
    + reflexivity.
Defined.

End GenerateSpec.

(* ================================================================== *)
(** ** The square crop *)

Module CropSpec.

Import ImageUtils Spec JSFacts.

Local Open Scope Q_scope.

Lemma Qlt_bool_iff (a b : Q) : Qlt_bool a b = true <-> a < b.
Proof.
  unfold Qlt_bool. rewrite negb_true_iff. split.
  - intros H. apply Qnot_le_lt. intros C. apply Qle_bool_iff in C. congruence.
  - intros H. destruct (Qle_bool b a) eqn:E; [|reflexivity].
    apply Qle_bool_iff in E. exfalso. exact (Qlt_not_le _ _ H E).
Qed.

Lemma ofN_le (a b : N) : (a <= b)%N -> ofN a <= ofN b.
Proof. intros H. unfold ofN. rewrite <- Zle_Qle. lia. Qed.

Lemma ofN_succ_le (a b : N) : (a < b)%N -> ofN a + 1 <= ofN b.
Proof.
  intros H. unfold ofN.
  change 1 with (inject_Z 1). rewrite <- inject_Z_plus, <- Zle_Qle. lia.
Qed.

Lemma ofN_nonneg (a : N) : 0 <= ofN a.
Proof. unfold ofN. change 0 with (inject_Z 0). rewrite <- Zle_Qle. lia. Qed.

Lemma ofN_pos (a : N) : (0 < a)%N -> 0 < ofN a.
Proof.
  intros H. unfold ofN. change 0 with (inject_Z 0). rewrite <- Zlt_Qlt. lia.
Qed.

Lemma ofN_nonzero (a : N) : (0 < a)%N -> Qeq_bool (ofN a) 0 = false.
Proof.
  intros H. destruct (Qeq_bool (ofN a) 0) eqn:E; [|reflexivity].
  apply Qeq_bool_iff in E. pose proof (ofN_pos H) as P. lra.
Qed.

Lemma croppedCanvas_size host image :
  width (croppedCanvas host image) = N.min (width image) (height image) /\
  height (croppedCanvas host image) = N.min (width image) (height image).
Proof.
  unfold croppedCanvas, drawImage.
  destruct (Qeq_bool _ 0 || Qeq_bool _ 0); now split.
Qed.

(** Each pixel of the cropped canvas is read, unscaled, at its own centre
    shifted by the offsets. *)
Lemma croppedCanvas_pixel host image x y :
  let size := N.min (width image) (height image) in
  (x < size)%N -> (y < size)%N ->
  exists kx ky u v,
    kx == 1 /\ ky == 1 /\
    u == (ofN (width image) - ofN size) / 2 + (ofN x + (1 # 2)) /\
    v == (ofN (height image) - ofN size) / 2 + (ofN y + (1 # 2)) /\
    pixel (croppedCanvas host image) x y = sample host image kx ky u v.
Proof.
  intros size Hx Hy.
  assert (Hs : (0 < size)%N) by lia.
  pose proof (ofN_pos Hs) as Ps.
  pose proof (ofN_succ_le Hx) as Bx. pose proof (ofN_succ_le Hy) as By.
  pose proof (ofN_nonneg x) as Nx. pose proof (ofN_nonneg y) as Ny.
  unfold croppedCanvas, drawImage. fold size.
  rewrite (ofN_nonzero Hs). simpl.
  assert (T1 : Qle_bool 0 (ofN x + (1 # 2)) = true) by (apply Qle_bool_iff; lra).
  assert (T2 : Qlt_bool (ofN x + (1 # 2)) (0 + ofN size) = true)
    by (apply Qlt_bool_iff; lra).
  assert (T3 : Qle_bool 0 (ofN y + (1 # 2)) = true) by (apply Qle_bool_iff; lra).
  assert (T4 : Qlt_bool (ofN y + (1 # 2)) (0 + ofN size) = true)
    by (apply Qlt_bool_iff; lra).
  rewrite T1, T2, T3, T4. simpl.
  eexists _, _, _, _.
  split; [|split; [|split; [|split; [|reflexivity]]]].
  - field. lra.
  - field. lra.
  - field. lra.
  - field. lra.
Qed.

(** Halving the excess centres the square: equal margins on both sides. *)
Lemma centred (w s : Q) :
  s <= w ->
  0 <= (w - s) / 2 /\ (w - s) / 2 + s <= w /\
  (w - s) / 2 == w - ((w - s) / 2 + s).
Proof.
  intros H. set (o := (w - s) / 2).
  assert (E : 2 * o == w - s) by (subst o; field).
  clearbody o. split; [lra | split; lra].
Qed.

Lemma cropImageToSquare_loaded host dataUrl image :
  decode host dataUrl = Some image ->
  getContext2d host (N.min (width image) (height image))
    (N.min (width image) (height image)) = true ->
  cropImageToSquare host dataUrl =
  Fulfilled (toDataURL host (lit "image/png") (croppedCanvas host image)).
Proof.
  intros D C. unfold cropImageToSquare. now rewrite D, C.
Qed.

Lemma toDataURL_png host canvas body :
  (0 < width canvas)%N -> (0 < height canvas)%N ->
  serialize host (lit "image/png") canvas = Some body ->
  toDataURL host (lit "image/png") canvas = lit "data:image/png;base64," ++ body.
Proof.
  intros W H S. unfold toDataURL.
  assert (E1 : N.eqb (width canvas) 0 = false) by (apply N.eqb_neq; lia).
  assert (E2 : N.eqb (height canvas) 0 = false) by (apply N.eqb_neq; lia).
  rewrite E1, E2. simpl. now rewrite S.
Qed.

Lemma toDataURL_no_file host canvas :
  (0 < width canvas)%N -> (0 < height canvas)%N ->
  serialize host (lit "image/png") canvas = None ->
  toDataURL host (lit "image/png") canvas = lit "data:,".
Proof.
  intros W H S. unfold toDataURL.
  assert (E1 : N.eqb (width canvas) 0 = false) by (apply N.eqb_neq; lia).
  assert (E2 : N.eqb (height canvas) 0 = false) by (apply N.eqb_neq; lia).
  rewrite E1, E2. simpl. now rewrite S.
Qed.

(** C2, amended. An image the browser decodes, of width w and height h
    (both positive), with a 2D context at hand and a canvas the user agent
    can serialise, is cropped to the square of side min(w, h): the canvas
    has that side on both axes, it is filled from the source rectangle at
    offsetX = (w - size) / 2, offsetY = (h - size) / 2 of size [size] by
    [size], drawn at the origin unscaled, and the result is
    "data:image/png;base64," followed by the PNG file of the canvas.  The
    rectangle lies inside the image, with equal margins on either side of
    it, and every pixel of the canvas is read unscaled at its own centre
    shifted by the offsets. *)
Theorem crop_is_centred_square host dataUrl image body :
  let size := N.min (width image) (height image) in
  let offsetX := (ofN (width image) - ofN size) / 2 in
  let offsetY := (ofN (height image) - ofN size) / 2 in
  let canvas :=
    drawImage host image offsetX offsetY (ofN size) (ofN size)
      0 0 (ofN size) (ofN size) (createCanvas size size) in
  decode host dataUrl = Some image ->
  (0 < width image)%N -> (0 < height image)%N ->
  getContext2d host size size = true ->
  serialize host (lit "image/png") canvas = Some body ->
  cropImageToSquare host dataUrl =
    Fulfilled (lit "data:image/png;base64," ++ body) /\
  width canvas = size /\ height canvas = size /\
  (0 <= offsetX /\ offsetX + ofN size <= ofN (width image) /\
   offsetX == ofN (width image) - (offsetX + ofN size)) /\
  (0 <= offsetY /\ offsetY + ofN size <= ofN (height image) /\
   offsetY == ofN (height image) - (offsetY + ofN size)) /\
  (forall x y, (x < size)%N -> (y < size)%N ->
     exists kx ky u v,
       kx == 1 /\ ky == 1 /\
       u == offsetX + (ofN x + (1 # 2)) /\
       v == offsetY + (ofN y + (1 # 2)) /\
       pixel canvas x y = sample host image kx ky u v).
Proof.
  intros size offsetX offsetY canvas D W H C S.
  change canvas with (croppedCanvas host image) in *.
  destruct (croppedCanvas_size host image) as [Cw Ch]. fold size in Cw, Ch.
  pose proof (ofN_le (N.le_min_l (width image) (height image))) as Lw.
  pose proof (ofN_le (N.le_min_r (width image) (height image))) as Lh.
  fold size in Lw, Lh.
  split; [|split; [exact Cw|split; [exact Ch|split; [|split]]]].
  - rewrite (cropImageToSquare_loaded host dataUrl D C).
    rewrite (@toDataURL_png host (croppedCanvas host image) body);
      [reflexivity | rewrite Cw; unfold size; lia
       | rewrite Ch; unfold size; lia | exact S].
  - exact (centred Lw).
  - exact (centred Lh).
  - intros x y Hx Hy. exact (croppedCanvas_pixel host image Hx Hy).
Qed.

Lemma crop_is_centred_square_witness :
  cropImageToSquare browser (lit "data:image/jpeg;base64,d2lkZQ==") =
  Fulfilled
    (lit "data:image/png;base64,"
       ++ channels (lit "image/png")
            (drawImage browser (gradient 4 2) ((4 - 2) / 2) ((2 - 2) / 2)
               2 2 0 0 2 2 (createCanvas 2 2))).
Proof.
  apply (@crop_is_centred_square browser
           (lit "data:image/jpeg;base64,d2lkZQ==") (gradient 4 2)
           (channels (lit "image/png")
              (drawImage browser (gradient 4 2) ((4 - 2) / 2) ((2 - 2) / 2)
                 2 2 0 0 2 2 (createCanvas 2 2)))).
  - reflexivity.
  - reflexivity.
  - reflexivity.
  - reflexivity.
  - reflexivity.
Defined.

(** C2 as stated fails: a browser that produces no file for a canvas of
    17000 by 17000 pixels decodes an image of that size and provides a 2D
    context, and the crop resolves with "data:,", which is no PNG data
    URL. *)
Lemma oversize_crop_is_no_png :
  let url := lit "data:image/jpeg;base64,aHVnZQ==" in
  decode Samples.limited url = Some (gradient 17000 17000) /\
  getContext2d Samples.limited 17000 17000 = true /\
  cropImageToSquare Samples.limited url = Fulfilled (lit "data:,") /\
  startsWith (lit "data:,") (lit "data:image/png") = false /\
  ~ (exists body,
       cropImageToSquare Samples.limited url
       = Fulfilled (lit "data:image/png;base64," ++ body)).
Proof.
  intros url.
  assert (R : cropImageToSquare Samples.limited url = Fulfilled (lit "data:,")).
  { rewrite (@cropImageToSquare_loaded Samples.limited url
               (gradient 17000 17000) eq_refl eq_refl).
    apply f_equal. apply toDataURL_no_file; reflexivity. }
  split; [reflexivity|]. split; [reflexivity|]. split; [exact R|].
  split; [reflexivity|].
  intros (body & B). rewrite R in B. discriminate B.
Qed.

(** The 4 by 2 gradient loses its first and last column. *)
Example crop_wide_gradient :
  cropImageToSquare browser (lit "data:image/jpeg;base64,d2lkZQ==") =
  Fulfilled (lit "data:image/png;base64,"
               ++ [1; 0; 7; 255;  2; 0; 7; 255;
                   1; 1; 7; 255;  2; 1; 7; 255]%N).
Proof. vm_compute. reflexivity. Qed.

Lemma Qfloor_half (x : N) (u : Q) :
  u == ofN x + (1 # 2) -> Z.to_N (Qfloor u) = x.
Proof.
  intros E. rewrite E. unfold ofN, Qplus, Qfloor, inject_Z; simpl.
  replace (Z.of_N x * 2 + 1)%Z with (1 + Z.of_N x * 2)%Z by lia.
  rewrite Z.div_add by lia. simpl. apply N2Z.id.
Qed.

Lemma browser_copiesOnGrid : copiesOnGrid browser.
Proof.
  intros image kx ky u v x y _ _ _ _ Eu Ev. simpl. unfold nearest.
  now rewrite (Qfloor_half Eu), (Qfloor_half Ev).
Qed.




End CropSpec.

(* ================================================================== *)
(** ** More on the generation client *)

Module ClientProps.

Import GeminiService Spec JSFacts.

(** X1. In the race inside [withTimeout] the callback that runs first
    settles the promise for good: whatever events follow (a late result of
    the call, a stray timer), the outcome is the one of the first event
    alone, and it is settled. *)
Theorem first_event_decides {T} (ms : N) (e : Event T) (later : list (Event T)) :
  outer (run ms (e :: later)) = outer (run ms [e]) /\
  outer (run ms [e]) <> None.
Proof.
  destruct e as [|s].
  - rewrite !GenerateSpec.timer_first. split; [reflexivity | discriminate].
  - rewrite !GenerateSpec.inner_first. split; [reflexivity | discriminate].
Qed.

(** X2. For a delay that [setTimeout] honours (below 2^31 ms), a promise
    that settles before the delay has passed (or at the same instant, when
    the response is handled first) goes through [withTimeout] unchanged:
    the same value if it is fulfilled, the very same reason if it is
    rejected.  A delay from 2^31 ms up to 2^32 ms is taken as 0, so there
    a promise that settles at any later time loses to the timer. *)
Theorem withTimeout_passes_through {T} (tie : bool) (t ms : N) (s : Settled T) :
  ((ms < 2147483648)%N ->
   (t < ms)%N \/ (t = ms /\ tie = false) ->
   withTimeout tie (SettlesAt t s) ms = Some s) /\
  ((2147483648 <= ms < 4294967296)%N -> (0 < t)%N ->
   withTimeout tie (SettlesAt t s) ms = Some (Rejected (timeoutReason ms))).
Proof.
  split.
  - intros Hm [H|[-> ->]].
    + apply GenerateSpec.withTimeout_before.
      now rewrite (GenerateSpec.timerDelay_small Hm).
    + unfold withTimeout, timeline.
      rewrite (GenerateSpec.timerDelay_small Hm).
      rewrite N.eqb_refl, orb_true_r. apply GenerateSpec.inner_first.
  - intros Hm Ht. apply GenerateSpec.withTimeout_after.
    unfold timerDelay. rewrite N.mod_small by lia.
    assert (E : N.ltb ms 2147483648 = false) by (apply N.ltb_ge; lia).
    now rewrite E.
Qed.

Lemma withTimeout_passes_through_witness :
  withTimeout true (SettlesAt 30 (@Rejected nat (NonError (lit "offline")))) 1500
  = Some (Rejected (NonError (lit "offline"))) /\
  withTimeout true (SettlesAt 30 (@Rejected nat (NonError (lit "offline"))))
    2147483648
  = Some (Rejected (timeoutReason 2147483648)).
Proof.
  split.
  - apply (proj1 (@withTimeout_passes_through nat true 30 1500
                    (Rejected (NonError (lit "offline"))))).
    + reflexivity.
    + left. reflexivity.
  - apply (proj2 (@withTimeout_passes_through nat true 30 2147483648
                    (Rejected (NonError (lit "offline"))))).
    + split; [apply N.le_refl | reflexivity].
    + reflexivity.
Defined.

(** X3. For every promise and every delay [withTimeout] settles: either
    with the timer's error, an [Error] whose message contains "timed out",
    or with the settlement of the promise itself, which then came no later
    than the delay. *)
Theorem withTimeout_always_settles {T} (tie : bool) (promise : Promise T)
    (ms : N) :
  (exists message,
     withTimeout tie promise ms = Some (Rejected (ErrorObj message)) /\
     timeoutReason ms = ErrorObj message /\
     includes message (lit "timed out") = true) \/
  (exists t s,
     promise = SettlesAt t s /\ (t <= ms)%N /\
     withTimeout tie promise ms = Some s).
Proof.
  assert (M : exists message,
             timeoutReason ms = ErrorObj message /\
             includes message (lit "timed out") = true).
  { eexists. split; [reflexivity|].
    replace (lit "Request timed out after " ++ secondsText ms ++ lit " seconds.")
      with (lit "Request " ++ lit "timed out"
              ++ (lit " after " ++ secondsText ms ++ lit " seconds."))
      by reflexivity.
    apply includes_app. }
  destruct M as (message & Em & Im).
  destruct promise as [|t s].
  - left. exists message. rewrite GenerateSpec.withTimeout_never. now rewrite Em.
  - unfold withTimeout, timeline.
    pose proof (GenerateSpec.timerDelay_le ms) as Le.
    destruct (N.ltb t (timerDelay ms) || (N.eqb t (timerDelay ms) && negb tie))
      eqn:E.
    + right. exists t, s. split; [reflexivity|]. split.
      * apply orb_true_iff in E as [E|E].
        -- apply N.ltb_lt in E. lia.
        -- apply andb_true_iff in E as [E _]. apply N.eqb_eq in E. lia.
      * apply GenerateSpec.inner_first.
    + left. exists message. rewrite GenerateSpec.timer_first. now rewrite Em.
Qed.

(** X4. A failure of the service call itself, arriving before the 120 s
    timer: an [Error] whose message does not contain "timed out" is
    reported as "API Error: " followed by that message, and a rejection
    with a value that is not an [Error] as the fixed unknown-error
    message. *)
Theorem transport_failure_reported
    ai b64 mime memeText description n style t reason :
  Genai.generateContent ai (request b64 mime memeText description n style)
  = SettlesAt t (Rejected reason) ->
  (t < 120000)%N ->
  (forall message,
     reason = ErrorObj message ->
     includes message (lit "timed out") = false ->
     generateMemeImage ai b64 mime memeText description n style
     = Some (Rejected (ErrorObj (lit "API Error: " ++ message)))) /\
  (forall shown,
     reason = NonError shown ->
     generateMemeImage ai b64 mime memeText description n style
     = Some (Rejected (ErrorObj unknownMessage))).
Proof.
  intros E Ht.
  rewrite (GenerateSpec.generate_in_time _ _ _ _ _ _ _ E Ht).
  split.
  - intros message -> I. simpl. now rewrite I.
  - intros shown ->. reflexivity.
Qed.

Lemma transport_failure_reported_witness :
  generateMemeImage
    (answers 700 (Rejected (ErrorObj (lit "429 Too Many Requests"))))
    (lit "aGk=") (lit "image/png") [] [] (of_Z 10) (lit "Comical")
  = Some (Rejected (ErrorObj (lit "API Error: 429 Too Many Requests"))).
Proof.
  apply (proj1 (@transport_failure_reported
                  (answers 700 (Rejected (ErrorObj (lit "429 Too Many Requests"))))
                  (lit "aGk=") (lit "image/png") [] [] (of_Z 10) (lit "Comical")
                  700%N (ErrorObj (lit "429 Too Many Requests"))
                  eq_refl eq_refl)
           (lit "429 Too Many Requests") eq_refl).
  vm_compute. reflexivity.
Defined.

(** X5. White space alone counts as no text: a caption or description
    made of white space gives the same request, code unit for code unit,
    as the empty one. *)
Theorem blank_text_is_no_text b64 mime memeText description n style :
  trim memeText = [] -> trim description = [] ->
  request b64 mime memeText description n style
  = request b64 mime [] [] n style.
Proof.
  intros Hc Hd. unfold request, fullPrompt, textInstruction,
    descriptionInstruction.
  now rewrite Hc, Hd.
Qed.

Lemma blank_text_is_no_text_witness :
  request (lit "aGk=") (lit "image/png") [32; 9; 10]%N [160; 12288]%N
    (of_Z 70) (lit "J-Art")
  = request (lit "aGk=") (lit "image/png") [] [] (of_Z 70) (lit "J-Art").
Proof.
  apply blank_text_is_no_text; vm_compute; reflexivity.
Defined.

(** X6. Only the first candidate of a response is looked at: responses
    delivered in time that differ in their later candidates only are
    treated alike, so an image that sits in a second candidate is never
    returned. *)
Theorem later_candidates_ignored
    ai ai' b64 mime memeText description n style t t' first rest rest' :
  Genai.generateContent ai (request b64 mime memeText description n style)
  = SettlesAt t (Fulfilled {| Genai.candidates := Some (first :: rest) |}) ->
  Genai.generateContent ai' (request b64 mime memeText description n style)
  = SettlesAt t' (Fulfilled {| Genai.candidates := Some (first :: rest') |}) ->
  (t < 120000)%N -> (t' < 120000)%N ->
  generateMemeImage ai b64 mime memeText description n style
  = generateMemeImage ai' b64 mime memeText description n style.
Proof.
  intros E E' Ht Ht'.
  rewrite (GenerateSpec.generate_in_time _ _ _ _ _ _ _ E Ht).
  rewrite (GenerateSpec.generate_in_time _ _ _ _ _ _ _ E' Ht').
  reflexivity.
Qed.

Lemma later_candidates_ignored_witness :
  let empty := {| Genai.content := Some {| Genai.parts := Some [] |} |} in
  let withImage :=
    {| Genai.content := Some {| Genai.parts := Some [imageOnly samplePng] |} |} in
  generateMemeImage
    (answers 50 (Fulfilled {| Genai.candidates := Some [empty; withImage] |}))
    (lit "aGk=") (lit "image/png") [] [] (of_Z 10) (lit "Comical")
  = generateMemeImage
      (answers 90 (Fulfilled {| Genai.candidates := Some [empty] |}))
      (lit "aGk=") (lit "image/png") [] [] (of_Z 10) (lit "Comical").
Proof.
  intros empty withImage.
  apply (@later_candidates_ignored
           (answers 50 (Fulfilled {| Genai.candidates := Some [empty; withImage] |}))
           (answers 90 (Fulfilled {| Genai.candidates := Some [empty] |}))
           (lit "aGk=") (lit "image/png") [] [] (of_Z 10) (lit "Comical")
           50%N 90%N empty [withImage] []);
    reflexivity.
Defined.

(** X7. Generation never makes an image up: when it resolves, the
    service fulfilled the call no later than 120000 ms after the request,
    and the result is the data and MIME type of the first part with inline
    data among the content parts of the first candidate of that
    response. *)
Theorem resolves_only_with_service_image
    ai b64 mime memeText description n style image :
  generateMemeImage ai b64 mime memeText description n style
  = Some (Fulfilled image) ->
  exists t response part blob,
    Genai.generateContent ai (request b64 mime memeText description n style)
    = SettlesAt t (Fulfilled response) /\
    (t <= 120000)%N /\
    firstWith hasInlineData (partsOf response) part /\
    Genai.inlineData part = Some blob /\
    image = {| base64 := Genai.data blob; mimeType := Genai.mimeType blob |}.
Proof.
  unfold generateMemeImage, tryBlock, withTimeout, timeline.
  change (timerDelay 120000) with 120000%N.
  destruct (Genai.generateContent ai
              (request b64 mime memeText description n style)) as [|t s].
  - discriminate.
  - destruct (N.ltb t 120000 || (N.eqb t 120000 && negb (Genai.timersFirst ai)))
      eqn:E.
    + rewrite GenerateSpec.inner_first.
      destruct s as [response|reason]; [|discriminate].
      unfold extract. rewrite GenerateSpec.imagePart_partsOf.
      destruct (List.find hasInlineData (partsOf response)) as [part|] eqn:F.
      * destruct (Genai.inlineData part) as [blob|] eqn:B.
        -- intros [= <-]. exists t, response, part, blob.
           split; [reflexivity|]. split.
           ++ apply orb_true_iff in E as [E|E].
              ** apply N.ltb_lt in E. lia.
              ** apply andb_true_iff in E as [E _]. apply N.eqb_eq in E. lia.
           ++ split; [now apply find_firstWith|]. now split.
        -- destruct (match textPart response with
                     | Some p => match Genai.text p with
                                 | Some s => if truthy s then Some s else None
                                 | None => None end
                     | None => None end); discriminate.
      * destruct (match textPart response with
                  | Some p => match Genai.text p with
                              | Some s => if truthy s then Some s else None
                              | None => None end
                  | None => None end); discriminate.
    + rewrite GenerateSpec.timer_first. discriminate.
Qed.

Lemma resolves_only_with_service_image_witness :
  exists t response part blob,
    Genai.generateContent
      (answers 4000 (Fulfilled (replyWith [imageOnly samplePng])))
      (request (lit "aGk=") (lit "image/png") [] [] (of_Z 10) (lit "Comical"))
    = SettlesAt t (Fulfilled response) /\
    (t <= 120000)%N /\
    firstWith hasInlineData (partsOf response) part /\
    Genai.inlineData part = Some blob /\
    {| base64 := lit "iVBORw0KGgo="; mimeType := lit "image/png" |}
    = {| base64 := Genai.data blob; mimeType := Genai.mimeType blob |}.
Proof.
  apply (@resolves_only_with_service_image
           (answers 4000 (Fulfilled (replyWith [imageOnly samplePng])))
           (lit "aGk=") (lit "image/png") [] [] (of_Z 10) (lit "Comical")).
  vm_compute. reflexivity.
Defined.

End ClientProps.

(* ================================================================== *)
(** ** More on the square crop *)

Module CropProps.

Import ImageUtils Spec JSFacts CropSpec.

Local Open Scope Q_scope.

Lemma ofN_add (a b : N) : ofN (a + b) == ofN a + ofN b.
Proof. unfold ofN. now rewrite N2Z.inj_add, inject_Z_plus. Qed.

Lemma ofN_double (a : N) : ofN (2 * a) == 2 * ofN a.
Proof.
  unfold ofN. rewrite N2Z.inj_mul, inject_Z_mult. reflexivity.
Qed.

Lemma half_excess (w s d : N) : w = (s + 2 * d)%N -> (ofN w - ofN s) / 2 == ofN d.
Proof. intros ->. rewrite ofN_add, ofN_double. field. Qed.

(** With a pixel-copying user agent, the canvas holds the pixels of the
    image shifted by whole offsets. *)
Lemma croppedCanvas_shift host image dx dy x y :
  let size := N.min (width image) (height image) in
  copiesOnGrid host ->
  width image = (size + 2 * dx)%N -> height image = (size + 2 * dy)%N ->
  (x < size)%N -> (y < size)%N ->
  pixel (croppedCanvas host image) x y = pixel image (x + dx) (y + dy).
Proof.
  intros size G Ew Eh Hx Hy.
  destruct (croppedCanvas_pixel host image Hx Hy)
    as (kx & ky & u & v & Kx & Ky & U & V & ->).
  fold size in U, V.
  rewrite (@half_excess _ _ _ Ew) in U. rewrite (@half_excess _ _ _ Eh) in V.
  apply G; try assumption; try lia.
  - rewrite U, ofN_add. ring.
  - rewrite V, ofN_add. ring.
Qed.

Lemma cropImageToSquare_empty host dataUrl image :
  decode host dataUrl = Some image ->
  width image = 0%N \/ height image = 0%N ->
  getContext2d host 0%N 0%N = true ->
  cropImageToSquare host dataUrl = Fulfilled (lit "data:,").
Proof.
  intros D Z C. unfold cropImageToSquare. rewrite D.
  assert (S0 : N.min (width image) (height image) = 0%N) by lia.
  rewrite S0, C. reflexivity.
Qed.

(** X8. How [cropImageToSquare] settles: it rejects with the error event
    when the image does not load, with the Error "Could not get canvas
    context" when it loads but no 2D context is to be had, and it resolves
    exactly when the image loads and a context is available. *)
Theorem crop_settles host dataUrl :
  (decode host dataUrl = None ->
   cropImageToSquare host dataUrl = Rejected errorEvent) /\
  (forall image,
     decode host dataUrl = Some image ->
     getContext2d host (N.min (width image) (height image))
       (N.min (width image) (height image)) = false ->
     cropImageToSquare host dataUrl
     = Rejected (ErrorObj (lit "Could not get canvas context"))) /\
  ((exists url, cropImageToSquare host dataUrl = Fulfilled url) <->
   (exists image,
      decode host dataUrl = Some image /\
      getContext2d host (N.min (width image) (height image))
        (N.min (width image) (height image)) = true)).
Proof.
  unfold cropImageToSquare.
  destruct (decode host dataUrl) as [image|].
  - split; [discriminate|]. split.
    + intros ? [= <-] C. now rewrite C.
    + destruct (getContext2d host _ _) eqn:C; simpl.
      * split; [intros _; now exists image | intros _; eexists; reflexivity].
      * split; [intros [? H]; discriminate H|].
        intros (image' & [= <-] & C'). congruence.
  - split; [reflexivity|]. split; [discriminate|].
    split; [intros [? H]; discriminate H | intros (? & H & _); discriminate H].
Qed.

Lemma crop_settles_witness :
  cropImageToSquare Samples.contextless (lit "data:image/png;base64,AAAA")
  = Rejected (ErrorObj (lit "Could not get canvas context")) /\
  cropImageToSquare browser (lit "data:text/plain;base64,aGk=")
  = Rejected errorEvent.
Proof.
  split.
  - apply (proj1 (proj2 (crop_settles Samples.contextless
                           (lit "data:image/png;base64,AAAA")))
             (gradient 4 2)); reflexivity.
  - apply (proj1 (crop_settles browser (lit "data:text/plain;base64,aGk="))).
    reflexivity.
Defined.

(** X9. An image that loads with width or height 0 is not rejected: the
    crop resolves, and with the pixel-less URL "data:," instead of a PNG. *)
Theorem crop_of_empty_image host dataUrl image :
  decode host dataUrl = Some image ->
  width image = 0%N \/ height image = 0%N ->
  getContext2d host 0%N 0%N = true ->
  cropImageToSquare host dataUrl = Fulfilled (lit "data:,").
Proof. exact (@cropImageToSquare_empty host dataUrl image). Qed.

Lemma crop_of_empty_image_witness :
  cropImageToSquare Samples.hollow (lit "data:image/gif;base64,R0lG")
  = Fulfilled (lit "data:,").
Proof.
  apply (@crop_of_empty_image Samples.hollow (lit "data:image/gif;base64,R0lG")
           (gradient 0 5)).
  - reflexivity.
  - left. reflexivity.
  - reflexivity.
Defined.

(** X10. When the excess of the longer side is even, the crop is exact to
    the pixel: with a user agent that copies pixels on an unscaled aligned
    draw, the pixel at (x, y) of the canvas that is serialised is the pixel
    at (x + dx, y + dy) of the image, dx and dy being half the excess of
    the width and of the height over the side. *)
Theorem crop_copies_centre host dataUrl image dx dy :
  let size := N.min (width image) (height image) in
  copiesOnGrid host ->
  decode host dataUrl = Some image ->
  getContext2d host size size = true ->
  width image = (size + 2 * dx)%N -> height image = (size + 2 * dy)%N ->
  exists canvas,
    cropImageToSquare host dataUrl
    = Fulfilled (toDataURL host (lit "image/png") canvas) /\
    width canvas = size /\ height canvas = size /\
    forall x y, (x < size)%N -> (y < size)%N ->
      pixel canvas x y = pixel image (x + dx) (y + dy).
Proof.
  intros size G D C Ew Eh.
  exists (croppedCanvas host image).
  destruct (croppedCanvas_size host image) as [Cw Ch].
  split; [exact (cropImageToSquare_loaded host dataUrl D C)|].
  split; [exact Cw|]. split; [exact Ch|].
  intros x y Hx Hy. now apply croppedCanvas_shift.
Qed.

Lemma crop_copies_centre_witness :
  exists canvas,
    cropImageToSquare browser (lit "data:image/jpeg;base64,d2lkZQ==")
    = Fulfilled (toDataURL browser (lit "image/png") canvas) /\
    width canvas = 2%N /\ height canvas = 2%N /\
    forall x y, (x < 2)%N -> (y < 2)%N ->
      pixel canvas x y = pixel (gradient 4 2) (x + 1) (y + 0).
Proof.
  apply (@crop_copies_centre browser (lit "data:image/jpeg;base64,d2lkZQ==")
           (gradient 4 2) 1%N 0%N browser_copiesOnGrid);
    reflexivity.
Defined.

(** X11. Cropping is idempotent: when the browser loads the canvas of a
    first crop as the image of a second one, the second crop, with a
    pixel-copying user agent, serialises a canvas that is pixel for pixel
    the first. *)
Theorem crop_twice host dataUrl image :
  let once := croppedCanvas host image in
  copiesOnGrid host ->
  decode host dataUrl = Some once ->
  getContext2d host (N.min (width once) (height once))
    (N.min (width once) (height once)) = true ->
  exists canvas,
    cropImageToSquare host dataUrl
    = Fulfilled (toDataURL host (lit "image/png") canvas) /\
    pixelIdentical canvas once.
Proof.
  intros once G D C.
  exists (croppedCanvas host once).
  split; [exact (cropImageToSquare_loaded host dataUrl D C)|].
  destruct (croppedCanvas_size host image) as [Ow Oh]. fold once in Ow, Oh.
  destruct (croppedCanvas_size host once) as [Cw Ch].
  assert (S : N.min (width once) (height once) = width once) by lia.
  split; [lia|]. split; [lia|].
  intros x y Hx Hy.
  replace x with (x + 0)%N at 2 by lia. replace y with (y + 0)%N at 2 by lia.
  apply croppedCanvas_shift; try assumption; lia.
Qed.

Lemma crop_twice_witness :
  let host :=
    {| decode := fun _ => Some (croppedCanvas browser (gradient 4 2));
       getContext2d := fun _ _ => true;
       sample := nearest;
       supportsType := fun _ => false;
       serialize := fun type b => Some (channels type b) |} in
  exists canvas,
    cropImageToSquare host (lit "data:image/png;base64,AAAA")
    = Fulfilled (toDataURL host (lit "image/png") canvas) /\
    pixelIdentical canvas (croppedCanvas host (gradient 4 2)).
Proof.
  intros host.
  apply (@crop_twice host (lit "data:image/png;base64,AAAA") (gradient 4 2)).
  - intros image kx ky u v x y _ _ _ _ Eu Ev. simpl. unfold nearest.
    now rewrite (Qfloor_half Eu), (Qfloor_half Ev).
  - reflexivity.
  - reflexivity.
Defined.

End CropProps.

(* ================================================================== *)
(** ** The page *)

Module AppProps.

Import GeminiService Spec JSFacts App.

(** *** Lemmas on [split] and on the outcomes of generation *)

Lemma split_whole (sep : N) (s : jsstring) :
  ~ In sep s -> split sep s = [s].
Proof.
  induction s as [|c s IH]; intros H; simpl; [reflexivity|].
  destruct (N.eqb c sep) eqn:E.
  - apply N.eqb_eq in E. exfalso. apply H. now left.
  - rewrite IH; [reflexivity|]. intros C. apply H. now right.
Qed.

Lemma split_nonempty (sep : N) (s : jsstring) : split sep s <> [].
Proof.
  destruct s as [|c s]; simpl; [discriminate|].
  destruct (N.eqb c sep); [discriminate|].
  destruct (split sep s); discriminate.
Qed.

Lemma split_at_first (sep : N) (a b : jsstring) :
  ~ In sep a -> split sep (a ++ sep :: b) = a :: split sep b.
Proof.
  induction a as [|c a IH]; intros H; simpl.
  - now rewrite N.eqb_refl.
  - destruct (N.eqb c sep) eqn:E.
    + apply N.eqb_eq in E. exfalso. apply H. now left.
    + rewrite IH; [reflexivity|]. intros C. apply H. now right.
Qed.

(** The segment after the first separator, when no second one follows. *)
Lemma second_segment (sep : N) (a b : jsstring) :
  ~ In sep a -> ~ In sep b ->
  nth_error (split sep (a ++ sep :: b)) 1 = Some b.
Proof.
  intros Ha Hb. now rewrite (@split_at_first sep a b Ha), (@split_whole sep b Hb).
Qed.






Lemma handleGenerate_present ai st image :
  originalImage st = Some image -> image <> [] ->
  handleGenerate ai st
  = conclude (attempt ai st image)
      (setGeneratedImage None (setError None (setIsLoading true st))).
Proof.
  intros E Hn. unfold handleGenerate. rewrite E.
  destruct image; [contradiction | reflexivity].
Qed.

Lemma attempt_invalid ai st image :
  present (nth_error (split comma image) 1) = false ->
  attempt ai st image
  = Some (Rejected (ErrorObj (lit "Invalid image data URL."))).
Proof. intros P. unfold attempt. now rewrite P. Qed.

Lemma attempt_valid ai st image body :
  nth_error (split comma image) 1 = Some body -> body <> [] ->
  attempt ai st image
  = generateMemeImage ai body (lit "image/png") (memeText st)
      (promptDescription st) (redrawIntensity st) (memeStyle st).
Proof.
  intros S B. unfold attempt. rewrite S.
  destruct body; [contradiction | reflexivity].
Qed.

(** *** The intensity label and the style buttons *)

(** X12. The label under the slider and the instruction sent to the model
    always name the same tier, for every number the slider state can
    hold. *)
Theorem description_matches_instruction (n : JSNumber) :
  (getDescriptionForIntensity n
   = lit "Subtle Magic: Keeps most of the original image." /\
   getIntensityInstruction n =
   lit "Subtly apply the style, making minimal changes to the original image's structure and preserving the subject's facial features as closely as possible.") \/
  (getDescriptionForIntensity n
   = lit "Balanced Charm: Blends original features with the selected style." /\
   getIntensityInstruction n =
   lit "Apply a balanced style, preserving the core facial features of the subject while clearly transforming the overall aesthetic.") \/
  (getDescriptionForIntensity n
   = lit "Full Transformation: A strong style that may alter features significantly." /\
   getIntensityInstruction n =
   lit "Heavily redraw the image in the style, retaining only the most essential facial characteristics (like eye position and basic expression) while transforming everything else significantly.").
Proof.
  change (lit "Subtly apply the style, making minimal changes to the original image's structure and preserving the subject's facial features as closely as possible.")
    with subtleClause.
  change (lit "Apply a balanced style, preserving the core facial features of the subject while clearly transforming the overall aesthetic.")
    with balancedClause.
  change (lit "Heavily redraw the image in the style, retaining only the most essential facial characteristics (like eye position and basic expression) while transforming everything else significantly.")
    with heavyClause.
  unfold getDescriptionForIntensity, getIntensityInstruction.
  destruct (num_le n (of_Z 33)); [now left|].
  destruct (num_le n (of_Z 66)); [right; now left | right; now right].
Qed.

(** X13. The identifiers behind the style buttons are exactly the six
    that [getStyleInstruction] has a case for, no two of them lead to the
    same clause, and the style selected at start is one of them. *)
Theorem style_buttons_recognised :
  (forall k, In k (List.map fst styles) <-> In k knownStyles) /\
  NoDup (List.map (fun kv => getStyleInstruction (fst kv)) styles) /\
  In (memeStyle initialState) (List.map fst styles).
Proof.
  split; [|split].
  - intros k. unfold styles, knownStyles. simpl. tauto.
  - vm_compute.
    repeat (constructor;
            [intros H; simpl in H;
             repeat (destruct H as [H|H]; [discriminate H|]); exact H|]).
    constructor.
  - simpl. tauto.
Qed.

(** *** handleGenerate *)

(** X14. Without usable image data the service is not called: with no
    image the only effect is the message asking for an upload; with an
    image URL whose part after the first comma is missing or empty (a URL
    without a comma, for one) the page ends not loading, without a result,
    showing "Generation failed: Invalid image data URL.". *)
Theorem generate_needs_image_data ai st :
  (present (originalImage st) = false ->
   handleGenerate ai st
   = setError (Some (lit "Please upload an image to begin the magic.")) st) /\
  (forall image,
     originalImage st = Some image -> image <> [] ->
     present (nth_error (split comma image) 1) = false ->
     error (handleGenerate ai st)
     = Some (lit "Generation failed: Invalid image data URL.") /\
     generatedImage (handleGenerate ai st) = None /\
     isLoading (handleGenerate ai st) = false /\
     forall ai', handleGenerate ai' st = handleGenerate ai st) /\
  (forall image,
     ~ In comma image -> present (nth_error (split comma image) 1) = false).
Proof.
  split; [|split].
  - intros H. unfold handleGenerate. now rewrite H.
  - intros image E Hn P.
    rewrite (@handleGenerate_present ai st image E Hn).
    rewrite (@attempt_invalid ai st image P).
    split; [reflexivity|]. split; [reflexivity|]. split; [reflexivity|].
    intros ai'. rewrite (@handleGenerate_present ai' st image E Hn).
    now rewrite (@attempt_invalid ai' st image P).
  - intros image H. now rewrite (@split_whole comma image H).
Qed.

Lemma generate_needs_image_data_witness :
  handleGenerate silent initialState
  = setError (Some (lit "Please upload an image to begin the magic."))
      initialState /\
  error (handleGenerate silent
           (setOriginalImage (Some (lit "blob:nothing-to-split")) initialState))
  = Some (lit "Generation failed: Invalid image data URL.").
Proof.
  split.
  - apply (proj1 (generate_needs_image_data silent initialState)). reflexivity.
  - apply (proj1 (proj2 (generate_needs_image_data silent
                           (setOriginalImage (Some (lit "blob:nothing-to-split"))
                              initialState)))
             (lit "blob:nothing-to-split")).
    + reflexivity.
    + discriminate.
    + apply (proj2 (proj2 (generate_needs_image_data silent initialState))).
      vm_compute. intuition discriminate.
Defined.



(** X16. When the service delivers an image in time, the page shows it as
    the data URL "data:" + MIME type + ";base64," + data of the first
    image part, with no error and the loading flag off. *)
Theorem generate_shows_image ai st image body t response part blob :
  originalImage st = Some image ->
  nth_error (split comma image) 1 = Some body -> body <> [] ->
  Genai.generateContent ai
    (request body (lit "image/png") (memeText st) (promptDescription st)
       (redrawIntensity st) (memeStyle st))
  = SettlesAt t (Fulfilled response) ->
  (t < 120000)%N ->
  firstWith hasInlineData (partsOf response) part ->
  Genai.inlineData part = Some blob ->
  generatedImage (handleGenerate ai st)
  = Some (lit "data:" ++ Genai.mimeType blob ++ lit ";base64,"
            ++ Genai.data blob) /\
  error (handleGenerate ai st) = None /\
  isLoading (handleGenerate ai st) = false.
Proof.
  intros E S B G Ht F I.
  assert (Hn : image <> []) by (intros ->; discriminate S).
  rewrite (@handleGenerate_present ai st image E Hn).
  rewrite (@attempt_valid ai st image body S B).
  rewrite (GenerateSpec.generate_in_time _ _ _ _ _ _ _ G Ht).
  rewrite (GenerateSpec.extract_image _ F I).
  split; [reflexivity|]. split; reflexivity.
Qed.

Lemma generate_shows_image_witness :
  generatedImage
    (handleGenerate
       (answers 2500 (Fulfilled (replyWith [imageOnly sampleJpeg])))
       Samples.uploaded)
  = Some (lit "data:" ++ lit "image/jpeg" ++ lit ";base64,"
            ++ lit "/9j/4AAQSkZJRg==").
Proof.
  apply (@generate_shows_image
           (answers 2500 (Fulfilled (replyWith [imageOnly sampleJpeg])))
           Samples.uploaded (lit "data:image/png;base64,iVBORw0KGgo=")
           (lit "iVBORw0KGgo=") 2500%N (replyWith [imageOnly sampleJpeg])
           (imageOnly sampleJpeg) sampleJpeg).
  - reflexivity.
  - reflexivity.
  - discriminate.
  - reflexivity.
  - reflexivity.
  - exists [], []. split; [reflexivity|]. split; [intros q []|reflexivity].
  - reflexivity.
Defined.

(** *** handleImageChange, and upload followed by generation *)

Lemma upload_cropped read host file rest st url image :
  read file = Some url ->
  ImageUtils.decode host url = Some image ->
  ImageUtils.getContext2d host
    (N.min (ImageUtils.width image) (ImageUtils.height image))
    (N.min (ImageUtils.width image) (ImageUtils.height image)) = true ->
  handleImageChange read host (file :: rest) st
  = setError None
      (setGeneratedImage None
         (setOriginalImage
            (Some (ImageUtils.toDataURL host (lit "image/png")
                     (ImageUtils.croppedCanvas host image))) st)).
Proof.
  intros R D C. unfold handleImageChange, ImageFiles.fileToDataUrl.
  rewrite R. now rewrite (CropSpec.cropImageToSquare_loaded host url D C).
Qed.

(** X17. Only the first selected file is used.  When it is read, decoded
    and a 2D context is available, the page takes the cropped data URL as
    its image and clears any earlier result and error; when reading,
    decoding or getting the context fails, the page keeps the image and the
    result it had and shows "Failed to read and crop image file."; with no
    file selected nothing changes. *)
Theorem upload_outcomes read host file rest st :
  (forall url image,
     read file = Some url ->
     ImageUtils.decode host url = Some image ->
     ImageUtils.getContext2d host
       (N.min (ImageUtils.width image) (ImageUtils.height image))
       (N.min (ImageUtils.width image) (ImageUtils.height image)) = true ->
     originalImage (handleImageChange read host (file :: rest) st)
     = Some (ImageUtils.toDataURL host (lit "image/png")
               (ImageUtils.croppedCanvas host image)) /\
     generatedImage (handleImageChange read host (file :: rest) st) = None /\
     error (handleImageChange read host (file :: rest) st) = None) /\
  (read file = None \/
   (exists url,
      read file = Some url /\
      (ImageUtils.decode host url = None \/
       exists image,
         ImageUtils.decode host url = Some image /\
         ImageUtils.getContext2d host
           (N.min (ImageUtils.width image) (ImageUtils.height image))
           (N.min (ImageUtils.width image) (ImageUtils.height image))
         = false)) ->
   originalImage (handleImageChange read host (file :: rest) st)
   = originalImage st /\
   generatedImage (handleImageChange read host (file :: rest) st)
   = generatedImage st /\
   error (handleImageChange read host (file :: rest) st)
   = Some (lit "Failed to read and crop image file.")) /\
  handleImageChange read host (file :: rest) st
  = handleImageChange read host [file] st /\
  handleImageChange read host [] st = st.
Proof.
  split; [|split; [|split; reflexivity]].
  - intros url image R D C.
    rewrite (@upload_cropped read host file rest st url image R D C).
    repeat split.
  - unfold handleImageChange, ImageFiles.fileToDataUrl,
      ImageUtils.cropImageToSquare.
    intros [R|(url & R & [D|(image & D & C)])]; rewrite R.
    + repeat split.
    + rewrite D. repeat split.
    + rewrite D, C. repeat split.
Qed.

Lemma upload_outcomes_witness :
  originalImage
    (handleImageChange Samples.reader browser [Samples.notes; Samples.photo]
       Samples.uploaded)
  = Some (lit "data:image/png;base64,iVBORw0KGgo=") /\
  error
    (handleImageChange Samples.reader browser [Samples.notes; Samples.photo]
       Samples.uploaded)
  = Some (lit "Failed to read and crop image file.").
Proof.
  destruct (proj1 (proj2 (upload_outcomes Samples.reader browser Samples.notes
                            [Samples.photo] Samples.uploaded)))
    as (O & _ & E).
  - left. reflexivity.
  - split; [exact O | exact E].
Defined.

Lemma generate_same_call ai ai' b64 mime caption description n style :
  Genai.generateContent ai (request b64 mime caption description n style)
  = Genai.generateContent ai' (request b64 mime caption description n style) ->
  Genai.timersFirst ai = Genai.timersFirst ai' ->
  generateMemeImage ai b64 mime caption description n style
  = generateMemeImage ai' b64 mime caption description n style.
Proof.
  intros E F. unfold generateMemeImage, tryBlock. now rewrite E, F.
Qed.

(** X18. Upload, then generate.  For an image of positive width and
    height whose canvas the user agent serialises to a PNG file [body] that
    is not empty and has no comma (as base64 text never has), the page
    stores "data:image/png;base64," + [body], and a generation started from
    there makes one call whose request has the model
    "gemini-2.5-flash-image-preview", an inline-data part with data [body]
    and MIME type "image/png", a text part with the prompt built from the
    caption, description, intensity and style the page holds, and the
    modalities IMAGE and TEXT; what the page then shows depends on the
    service only through its answer to that request. *)
Theorem upload_then_generate read host ai ai' file rest st url image body :
  let loaded := handleImageChange read host (file :: rest) st in
  let sent :=
    {| Genai.model := lit "gemini-2.5-flash-image-preview";
       Genai.contents :=
         [ {| Genai.inlineData :=
                Some {| Genai.data := body;
                        Genai.mimeType := lit "image/png" |};
              Genai.text := None |};
           {| Genai.inlineData := None;
              Genai.text :=
                Some (fullPrompt (memeText st) (promptDescription st)
                        (redrawIntensity st) (memeStyle st)) |} ];
       Genai.responseModalities := [Genai.IMAGE; Genai.TEXT] |} in
  read file = Some url ->
  ImageUtils.decode host url = Some image ->
  (0 < ImageUtils.width image)%N -> (0 < ImageUtils.height image)%N ->
  ImageUtils.getContext2d host
    (N.min (ImageUtils.width image) (ImageUtils.height image))
    (N.min (ImageUtils.width image) (ImageUtils.height image)) = true ->
  ImageUtils.serialize host (lit "image/png")
    (ImageUtils.croppedCanvas host image) = Some body ->
  body <> [] -> ~ In comma body ->
  originalImage loaded = Some (lit "data:image/png;base64," ++ body) /\
  handleGenerate ai loaded
  = conclude
      (generateMemeImage ai body (lit "image/png") (memeText st)
         (promptDescription st) (redrawIntensity st) (memeStyle st))
      (setGeneratedImage None (setError None (setIsLoading true loaded))) /\
  (Genai.generateContent ai sent = Genai.generateContent ai' sent ->
   Genai.timersFirst ai = Genai.timersFirst ai' ->
   handleGenerate ai loaded = handleGenerate ai' loaded).
Proof.
  intros loaded sent R D W H C Sb B Hc.
  assert (L : loaded
              = setError None
                  (setGeneratedImage None
                     (setOriginalImage
                        (Some (lit "data:image/png;base64," ++ body)) st))).
  { unfold loaded.
    rewrite (@upload_cropped read host file rest st url image R D C).
    destruct (CropSpec.croppedCanvas_size host image) as [Cw Ch].
    rewrite (@CropSpec.toDataURL_png host (ImageUtils.croppedCanvas host image)
               body) by (rewrite ?Cw, ?Ch; (lia || exact Sb)).
    reflexivity. }
  assert (O : originalImage loaded
              = Some (lit "data:image/png;base64," ++ body))
    by now rewrite L.
  assert (Hn : lit "data:image/png;base64," ++ body <> []) by discriminate.
  assert (S : nth_error (split comma (lit "data:image/png;base64," ++ body)) 1
              = Some body).
  { replace (lit "data:image/png;base64," ++ body)
      with (lit "data:image/png;base64" ++ comma :: body) by reflexivity.
    apply second_segment; [|exact Hc].
    vm_compute. intuition discriminate. }
  assert (G : forall service,
             handleGenerate service loaded
             = conclude
                 (generateMemeImage service body (lit "image/png") (memeText st)
                    (promptDescription st) (redrawIntensity st) (memeStyle st))
                 (setGeneratedImage None
                    (setError None (setIsLoading true loaded)))).
  { intros service.
    rewrite (@handleGenerate_present service loaded _ O Hn).
    rewrite (@attempt_valid service loaded _ body S B).
    now rewrite L. }
  split; [exact O|]. split; [apply G|].
  intros E F. rewrite (G ai), (G ai').
  now rewrite (@generate_same_call ai ai' body (lit "image/png") (memeText st)
                 (promptDescription st) (redrawIntensity st) (memeStyle st)
                 E F).
Qed.

Lemma upload_then_generate_witness :
  originalImage
    (handleImageChange Samples.reader Samples.encoding [Samples.photo]
       initialState)
  = Some (lit "data:image/png;base64," ++ lit "iVBORw0KGgo=").
Proof.
  apply (@upload_then_generate Samples.reader Samples.encoding silent silent
           Samples.photo [] initialState
           (lit "data:image/jpeg;base64,d2lkZQ==") (gradient 4 2)
           (lit "iVBORw0KGgo=")).
  - reflexivity.
  - reflexivity.
  - reflexivity.
  - reflexivity.
  - reflexivity.
  - reflexivity.
  - discriminate.
  - vm_compute. intuition discriminate.
Defined.

(** X19. An image that loads with width or height 0 is accepted at
    upload, as the URL "data:,"; a generation started from it never reaches
    the service and ends with
    "Generation failed: Invalid image data URL.". *)
Theorem empty_image_then_generate read host ai file rest st url image :
  let loaded := handleImageChange read host (file :: rest) st in
  read file = Some url ->
  ImageUtils.decode host url = Some image ->
  ImageUtils.width image = 0%N \/ ImageUtils.height image = 0%N ->
  ImageUtils.getContext2d host 0%N 0%N = true ->
  originalImage loaded = Some (lit "data:,") /\
  error loaded = None /\
  error (handleGenerate ai loaded)
  = Some (lit "Generation failed: Invalid image data URL.") /\
  generatedImage (handleGenerate ai loaded) = None /\
  isLoading (handleGenerate ai loaded) = false.
Proof.
  intros loaded R D Z C.
  assert (L : loaded
              = setError None
                  (setGeneratedImage None
                     (setOriginalImage (Some (lit "data:,")) st))).
  { unfold loaded, handleImageChange, ImageFiles.fileToDataUrl. rewrite R.
    now rewrite (@CropProps.cropImageToSquare_empty host url image D Z C). }
  assert (O : originalImage loaded = Some (lit "data:,")) by now rewrite L.
  split; [exact O|]. split; [now rewrite L|].
  assert (Hn : lit "data:," <> []) by discriminate.
  rewrite (@handleGenerate_present ai loaded _ O Hn).
  rewrite (@attempt_invalid ai loaded (lit "data:,") eq_refl).
  split; [reflexivity|]. split; reflexivity.
Qed.

Lemma empty_image_then_generate_witness :
  error
    (handleGenerate (answers 10 (Fulfilled (replyWith [imageOnly samplePng])))
       (handleImageChange Samples.reader Samples.hollow [Samples.photo]
          initialState))
  = Some (lit "Generation failed: Invalid image data URL.").
Proof.
  apply (@empty_image_then_generate Samples.reader Samples.hollow
           (answers 10 (Fulfilled (replyWith [imageOnly samplePng])))
           Samples.photo [] initialState
           (lit "data:image/jpeg;base64,d2lkZQ==") (gradient 0 5)).
  - reflexivity.
  - reflexivity.
  - left. reflexivity.
  - reflexivity.
Defined.

End AppProps.
